(** * KiaKart vendor dashboard: the client of [frontend/src/App.js]

    A shallow embedding of the single-page client: the API wrapper
    [apiCall], the session handlers of [App], the view router and the
    components [Dashboard], [ProductsView], [ProductForm] and [OrdersView].

    Conventions of the embedding.
    - A JavaScript string is a [string]; a JavaScript number is a binary64
      [float], whose [+] is [PrimFloat.add].
    - [null]/[undefined] are [None]; a value is truthy as JavaScript says
      (the empty string and [null] are falsy).
    - A React state variable is a field of [AppState]; the value a closure
      captured at render time is an explicit argument ([token] below).
    - Asynchronous handlers run to completion, one after the other: the
      interleaving of overlapping requests is outside the model.
    - The body of a successful response has the type its endpoint
      promises; the body of a failed response is an untyped JSON [Value],
      of which the client reads the member detail.
    - What the host supplies (the environment variable, the number printer,
      the network, the texts of the engine's TypeErrors) is the class
      [Host]. *)

From Stdlib Require Import Ascii String NArith Floats.PrimFloat.
From stdpp Require Import base option list strings gmap.

Local Open Scope string_scope.
Local Open Scope list_scope.
Local Open Scope stdpp_scope.

(** ** JavaScript built-ins used by the source *)

Module Js.

(** [s.startsWith(prefix)]. *)
Definition startsWith (s prefix : string) : bool := String.prefix prefix s.

(** [s.split(sep)] for a one-character separator: the pieces between the
    occurrences of [sep], in order; never empty ([''.split('-')] is ['']). *)
Fixpoint split (sep : ascii) (s : string) : list string :=
  match s with
  | EmptyString => [EmptyString]
  | String c rest =>
      if Ascii.eqb c sep then EmptyString :: split sep rest
      else match split sep rest with
           | piece :: pieces => String c piece :: pieces
           | [] => [String c EmptyString]
           end
  end.

(** [s.includes(c)] for a one-character [c]. *)
Fixpoint includes (s : string) (c : ascii) : bool :=
  match s with
  | EmptyString => false
  | String x rest => Ascii.eqb x c || includes rest c
  end.

(** [arr.find(pred)]: the first element that satisfies [pred], or undefined. *)
Fixpoint find {A} (pred : A -> bool) (arr : list A) : option A :=
  match arr with
  | [] => None
  | x :: rest => if pred x then Some x else find pred rest
  end.

(** [arr.filter(pred)]: a new array of the elements that satisfy [pred]. *)
Fixpoint filter {A} (pred : A -> bool) (arr : list A) : list A :=
  match arr with
  | [] => []
  | x :: rest => if pred x then x :: filter pred rest else filter pred rest
  end.

(** [arr.reduce(callback, initial)]: the callback is applied to the
    accumulator and each element in turn, from the first. *)
Fixpoint reduce {A B} (callback : B -> A -> B) (initial : B) (arr : list A) : B :=
  match arr with
  | [] => initial
  | x :: rest => reduce callback (callback initial x) rest
  end.

(** [arr.slice(0, n)]. *)
Definition slice0 {A} (n : nat) (arr : list A) : list A := take n arr.

(** [x === y] on an operand that may be undefined and a string. *)
Definition strict_eq (x : string) (y : option string) : bool :=
  match y with
  | Some s => String.eqb x s
  | None => false
  end.

(** Truthiness. *)
Definition truthy_string (s : string) : bool :=
  match s with EmptyString => false | _ => true end.

Definition truthy (v : option string) : bool :=
  match v with Some s => truthy_string s | None => false end.

Definition truthy_number (n : float) : bool :=
  negb (PrimFloat.eqb n 0 || PrimFloat.is_nan n).

(** [a || b] on strings. *)
Definition or_else (a : option string) (b : string) : string :=
  match a with
  | Some s => if truthy_string s then s else b
  | None => b
  end.

(** A value of unknown presence inside a template literal:
    [`${undefined}`] is the text undefined. *)
Definition template (v : option string) : string :=
  match v with Some s => s | None => "undefined" end.

(** [arr.join(sep)] on strings. *)
Definition join (sep : string) (pieces : list string) : string :=
  String.concat sep pieces.

(** [JSON.stringify] on a string (QuoteJSONString): the quote, the
    backslash and the control characters are escaped. *)
Definition hex_digit (n : N) : ascii :=
  Ascii.ascii_of_N (if (n <? 10)%N then 48 + n else 87 + n)%N.

Definition quote_char (c : ascii) : string :=
  let n := Ascii.N_of_ascii c in
  let backslash := Ascii.ascii_of_N 92 in
  let esc (x : ascii) := String backslash (String x EmptyString) in
  if (n =? 8)%N then esc "b"%char
  else if (n =? 9)%N then esc "t"%char
  else if (n =? 10)%N then esc "n"%char
  else if (n =? 12)%N then esc "f"%char
  else if (n =? 13)%N then esc "r"%char
  else if (n =? 34)%N then esc c
  else if (n =? 92)%N then esc c
  else if (n <? 32)%N then
    String backslash ("u00" +:+
      String (hex_digit (n / 16)) (String (hex_digit (n mod 16)) EmptyString))
  else String c EmptyString.

Fixpoint quote_chars (s : string) : string :=
  match s with
  | EmptyString => EmptyString
  | String c rest => quote_char c +:+ quote_chars rest
  end.

Definition dquote : string := String (Ascii.ascii_of_N 34) EmptyString.

Definition quote (s : string) : string := dquote +:+ quote_chars s +:+ dquote.

(** [JSON.stringify] on an object whose own properties, in insertion
    order, are [fields], all of them strings. *)
Fixpoint stringify_members (fields : list (string * string)) : string :=
  match fields with
  | [] => EmptyString
  | [(k, v)] => quote k +:+ ":" +:+ quote v
  | (k, v) :: rest => quote k +:+ ":" +:+ quote v +:+ "," +:+ stringify_members rest
  end.

Definition JSON_stringify (fields : list (string * string)) : string :=
  "{" +:+ stringify_members fields +:+ "}".

End Js.

(** ** Data model *)

Module Vendor.
Record t := mk
  { id : string; name : string; business_name : string;
    email : string; phone : string }.
End Vendor.

Module Product.
Record t := mk
  { id : string; name : string; description : string; price : float;
    quantity : float; category : string; images : list string }.
End Product.

Module Order.
Record t := mk
  { id : string; product_name : string; product_image : option string;
    customer_name : string; customer_email : string; quantity : float;
    total_price : float; status : string; created_at : string }.
End Order.

(** The state of the login and registration form of [AuthScreen]. *)
Module AuthForm.
Record t := mk
  { email : string; password : string; name : string;
    business_name : string; phone : string }.

(** The own properties of the form object, in insertion order. *)
Definition fields (f : t) : list (string * string) :=
  [("email", email f); ("password", password f); ("name", name f);
   ("business_name", business_name f); ("phone", phone f)].
End AuthForm.

(** The body of a successful login or registration. *)
Record AuthResponse := { access_token : string; vendor : Vendor.t }.

(** A parsed JSON value: what [response.json()] yields for a body the
    client has no type for, as the body of a failed response. An object is
    the list of its members as the text gives them. *)
#[warnings="-register-all"]
Inductive Value :=
| VNull
| VBool (b : bool)
| VNumber (n : float)
| VString (s : string)
| VArray (items : list Value)
| VObject (members : list (string * Value)).

(** The value of the member [key] of an object: when the text repeats a
    key, the last one counts; [None] is undefined. *)
Fixpoint member (members : list (string * Value)) (key : string) : option Value :=
  match members with
  | [] => None
  | (k, v) :: rest =>
      match member rest key with
      | Some later => Some later
      | None => if String.eqb k key then Some v else None
      end
  end.

(** [value.detail] for a value that is not null: the member of an object,
    undefined for an array, a string, a number or a boolean. *)
Definition detail_of (value : Value) : option Value :=
  match value with
  | VObject members => member members "detail"
  | _ => None
  end.

(** Truthiness of a parsed value. *)
Definition truthy_value (value : Value) : bool :=
  match value with
  | VNull => false
  | VBool b => b
  | VNumber n => Js.truthy_number n
  | VString s => Js.truthy_string s
  | VArray _ | VObject _ => true
  end.

(** A file picked in the image input. *)
Record File := { file_name : string; file_bytes : string }.

(** The value of a form control: text typed by the user, or the number a
    field of the edited product holds. *)
Inductive InputValue :=
| Text (s : string)
| Number (n : float).

(** The state of [ProductForm], its keys in insertion order. *)
Module ProductFormData.
Record t := mk
  { name : string; price : InputValue; description : string;
    quantity : InputValue; category : string; images : list File }.
End ProductFormData.

(** ** Errors *)

Record exn := mk_exn { exn_name : string; message : string }.

(** [new Error(message)]. *)
Definition Error (message : string) : exn := mk_exn "Error" message.

Definition ReferenceError (message : string) : exn := mk_exn "ReferenceError" message.

Definition TypeError (message : string) : exn := mk_exn "TypeError" message.

(** The two TypeErrors the engine can raise on a parsed value: a property
    read of null, and a conversion to string of an object whose toString
    and valueOf give no primitive. *)
Inductive Fault :=
| ReadOfNull (key : string)
| NoPrimitive.

(** ** Requests and responses *)

Inductive FormValue :=
| FormText (s : string)
| FormFile (f : File).

(** What a caller may pass as [options.body]. *)
Inductive Body :=
| BodyText (text : string)
| BodyFormData (entries : list (string * FormValue))
| BodyObject (fields : list (string * string)).

(** The second argument of [apiCall]. *)
Record Options := mk_options
  { method : option string; body : option Body;
    headers : option (gmap string string) }.

Definition no_options : Options := mk_options None None None.

(** The two arguments of [fetch]. *)
Record Request := mk_request
  { url : string; init_method : option string; init_body : option Body;
    init_headers : gmap string string }.

(** The outcome of [response.json()]: the parsed body, or the rejection
    of the parser when the body is not JSON. *)
Inductive Json (A : Type) :=
| Parsed (value : A)
| Unparsable (e : exn).
Arguments Parsed {A} value.
Arguments Unparsable {A} e.

(** A response: [Success] when [response.ok] (a status from 200 to 299),
    [Failure] otherwise. *)
Inductive Response (A : Type) :=
| Success (json : Json A)
| Failure (json : Json Value).
Arguments Success {A} json.
Arguments Failure {A} json.

Definition ok {A} (response : Response A) : bool :=
  match response with Success _ => true | Failure _ => false end.

(** The promise [fetch] returns: resolved with a response, or rejected
    (the network failed). *)
Inductive Fetched (A : Type) :=
| Resolved (response : Response A)
| Rejected (e : exn).
Arguments Resolved {A} response.
Arguments Rejected {A} e.

(** The shape of JSON each endpoint answers with on success. *)
Inductive Endpoint :=
| AuthEndpoint
| ProfileEndpoint
| ProductsEndpoint
| OrdersEndpoint
| AckEndpoint.

Definition payload (e : Endpoint) : Type :=
  match e with
  | AuthEndpoint => AuthResponse
  | ProfileEndpoint => Vendor.t
  | ProductsEndpoint => list Product.t
  | OrdersEndpoint => list Order.t
  | AckEndpoint => unit
  end.

(** ** State *)

Record AppState := mk_state
  { currentView : string; user : option Vendor.t; token : option string;
    products : list Product.t; orders : list Order.t; loading : bool;
    error : string; success : string }.

Record World := mk_world
  { state : AppState;
    localStorage : gmap string string;
    requests : list Request;
    console : list (string * exn) }.

(** ** Computations: state and exceptions *)

Inductive outcome (A : Type) :=
| Returned (a : A)
| Thrown (e : exn).
Arguments Returned {A} a.
Arguments Thrown {A} e.

Definition M (A : Type) : Type := World -> outcome A * World.

#[export] Instance M_ret : MRet M := fun A a w => (Returned a, w).

#[export] Instance M_bind : MBind M := fun A B k m w =>
  match m w with
  | (Returned a, w') => k a w'
  | (Thrown e, w') => (Thrown e, w')
  end.

Definition throw {A} (e : exn) : M A := fun w => (Thrown e, w).

(** [try { body } catch (e) { handler }]. *)
Definition try_catch {A} (body : M A) (handler : exn -> M A) : M A := fun w =>
  match body w with
  | (Returned a, w') => (Returned a, w')
  | (Thrown e, w') => handler e w'
  end.

(** [try { body } finally { cleanup }]. *)
Definition try_finally {A} (body : M A) (cleanup : M unit) : M A := fun w =>
  match body w with
  | (r, w') =>
      match cleanup w' with
      | (Returned _, w'') => (r, w'')
      | (Thrown e, w'') => (Thrown e, w'')
      end
  end.

(** A call to an async function that is not awaited: a rejection does not
    reach the caller. *)
Definition not_awaited (m : M unit) : M unit := try_catch m (fun _ => mret tt).

Definition when (b : bool) (m : M unit) : M unit := if b then m else mret tt.

Definition modify (f : AppState -> AppState) : M unit := fun w =>
  (Returned tt, mk_world (f (state w)) (localStorage w) (requests w) (console w)).

Definition getState : M AppState := fun w => (Returned (state w), w).

Definition setCurrentView (v : string) : M unit := modify (fun s =>
  mk_state v (user s) (token s) (products s) (orders s) (loading s) (error s) (success s)).

Definition setUser (v : option Vendor.t) : M unit := modify (fun s =>
  mk_state (currentView s) v (token s) (products s) (orders s) (loading s) (error s) (success s)).

Definition setToken (v : option string) : M unit := modify (fun s =>
  mk_state (currentView s) (user s) v (products s) (orders s) (loading s) (error s) (success s)).

Definition setProducts (v : list Product.t) : M unit := modify (fun s =>
  mk_state (currentView s) (user s) (token s) v (orders s) (loading s) (error s) (success s)).

Definition setOrders (v : list Order.t) : M unit := modify (fun s =>
  mk_state (currentView s) (user s) (token s) (products s) v (loading s) (error s) (success s)).

Definition setLoading (v : bool) : M unit := modify (fun s =>
  mk_state (currentView s) (user s) (token s) (products s) (orders s) v (error s) (success s)).

Definition setError (v : string) : M unit := modify (fun s =>
  mk_state (currentView s) (user s) (token s) (products s) (orders s) (loading s) v (success s)).

Definition setSuccess (v : string) : M unit := modify (fun s =>
  mk_state (currentView s) (user s) (token s) (products s) (orders s) (loading s) (error s) v).

Definition localStorage_getItem (storage : gmap string string) (key : string) : option string :=
  storage !! key.

Definition localStorage_setItem (key value : string) : M unit := fun w =>
  (Returned tt, mk_world (state w) (<[key := value]> (localStorage w)) (requests w) (console w)).

Definition localStorage_removeItem (key : string) : M unit := fun w =>
  (Returned tt, mk_world (state w) (delete key (localStorage w)) (requests w) (console w)).

Definition console_error (label : string) (e : exn) : M unit := fun w =>
  (Returned tt, mk_world (state w) (localStorage w) (requests w) (console w ++ [(label, e)])).

(** What the host supplies: [process.env.REACT_APP_BACKEND_URL], the
    conversion of a number to a string, the network behind [fetch] (its
    answer may depend on the requests made before), the answer of the
    user to [window.confirm], the global object: the names it binds
    and what calling one of them with a string does, and the text the
    engine gives each TypeError it raises on a parsed value. *)
Class Host := mk_host
  { REACT_APP_BACKEND_URL : option string;
    Number_toString : float -> string;
    fetch : forall e : Endpoint, list Request -> Request -> Fetched (payload e);
    window_confirm : string -> bool;
    global_names : list string;
    global_call : string -> string -> M unit;
    TypeError_message : Fault -> string }.

(** The world after one more request went out. *)
Definition sent (request : Request) (w : World) : World :=
  mk_world (state w) (localStorage w) (requests w ++ [request]) (console w).

(** [await fetch(url, init)]: the request is recorded and the host answers. *)
Definition await_fetch `{Host} (e : Endpoint) (request : Request) : M (Response (payload e)) :=
  fun w =>
    match fetch e (requests w) request with
    | Resolved response => (Returned response, sent request w)
    | Rejected err => (Thrown err, sent request w)
    end.

(** [await response.json()]. *)
Definition await_json {A} (json : Json A) : M A :=
  match json with
  | Parsed value => mret value
  | Unparsable e => throw e
  end.

(** ** The API client wrapper *)

Definition API_BASE_URL `{Host} : string :=
  Js.or_else REACT_APP_BACKEND_URL "http://localhost:8001".

(** [{ Authorization: `Bearer ${token}` }]. *)
Definition bearer (token : option string) : gmap string string :=
  {[ "Authorization" := "Bearer " +:+ Js.template token ]}.

(** [{ ...a, ...b }]: the properties of [b] override those of [a]. *)
Definition spread (a b : gmap string string) : gmap string string := b ∪ a.

(** The headers [apiCall] builds: the JSON content type, then the bearer
    header when the token is truthy, then the caller's headers. *)
Definition apiCall_headers (token : option string) (options : Options) : gmap string string :=
  spread
    (spread {[ "Content-Type" := "application/json" ]}
            (if Js.truthy token then bearer token else ∅))
    (default ∅ (headers options)).

(** The arguments [apiCall] hands to [fetch]:
    [fetch(`${API_BASE_URL}${url}`, { ...options, headers })]. *)
Definition apiCall_request `{Host} (token : option string) (url : string)
    (options : Options) : Request :=
  mk_request (API_BASE_URL +:+ url) (method options) (body options)
             (apiCall_headers token options).

(** [String(value)], as [new Error(value)] applies it to its argument;
    [None] when the conversion throws a TypeError. An array is the join of
    its items with commas, null items being empty. An object parsed from
    JSON has no callable member: with a member toString of its own neither
    toString nor valueOf gives a primitive, and without one it is the text
    of [Object.prototype.toString]. *)
Fixpoint ToString_value `{Host} (value : Value) : option string :=
  match value with
  | VNull => Some "null"
  | VBool true => Some "true"
  | VBool false => Some "false"
  | VNumber n => Some (Number_toString n)
  | VString s => Some s
  | VArray items =>
      Js.join "," <$>
        mapM (fun item => match item with
                          | VNull => Some ""
                          | _ => ToString_value item
                          end) items
  | VObject members =>
      match member members "toString" with
      | Some _ => None
      | None => Some "[object Object]"
      end
  end.

(** [errorData.detail]: reading a property of null throws. *)
Definition read_detail `{Host} (errorData : Value) : M (option Value) :=
  match errorData with
  | VNull => throw (TypeError (TypeError_message (ReadOfNull "detail")))
  | _ => mret (detail_of errorData)
  end.

(** [new Error(detail || 'An error occurred')]. *)
Definition new_Error `{Host} (detail : option Value) : M exn :=
  match detail with
  | Some value =>
      if truthy_value value
      then match ToString_value value with
           | Some message => mret (Error message)
           | None => throw (TypeError (TypeError_message NoPrimitive))
           end
      else mret (Error "An error occurred")
  | None => mret (Error "An error occurred")
  end.

(** What [apiCall] throws for a failed response whose body parsed to
    [errorData]. *)
Definition rejection `{Host} (errorData : Value) : exn :=
  match errorData with
  | VNull => TypeError (TypeError_message (ReadOfNull "detail"))
  | _ =>
      match detail_of errorData with
      | Some value =>
          if truthy_value value
          then match ToString_value value with
               | Some message => Error message
               | None => TypeError (TypeError_message NoPrimitive)
               end
          else Error "An error occurred"
      | None => Error "An error occurred"
      end
  end.

(** [apiCall(url, options)], in the closure of a render whose token is
    [token]; [e] is the shape of the JSON the caller expects back. *)
Definition apiCall `{Host} (token : option string) (e : Endpoint) (url : string)
    (options : Options) : M (payload e) :=
  response ← await_fetch e (apiCall_request token url options);
  match response with
  | Failure json =>
      errorData ← await_json json;
      detail ← read_detail errorData;
      err ← new_Error detail;
      throw err
  | Success json => await_json json
  end.

(** ** The handlers of [App] *)

(** The request of [fetchUserProfile] in a render that holds [held]. *)
Definition profileRequest `{Host} (held : option string) : Request :=
  apiCall_request held "/api/vendor/profile" no_options.

Definition fetchUserProfile `{Host} (token : option string) : M unit :=
  try_catch
    (profile ← apiCall token ProfileEndpoint "/api/vendor/profile" no_options;
     setUser (Some profile);;
     setCurrentView "dashboard")
    (fun error =>
     console_error "Profile fetch error:" error;;
     localStorage_removeItem "token";;
     setToken None).

(** The options of the call of [handleAuth]:
    [{ method: 'POST', body: JSON.stringify(formData) }]. *)
Definition authOptions (formData : AuthForm.t) : Options :=
  mk_options (Some "POST")
             (Some (BodyText (Js.JSON_stringify (AuthForm.fields formData)))) None.

Definition authEndpoint (isLogin : bool) : string :=
  if isLogin then "/api/auth/login" else "/api/auth/register".

Definition handleAuth `{Host} (token : option string) (formData : AuthForm.t)
    (isLogin : bool) : M unit :=
  setLoading true;;
  setError "";;
  try_finally
    (try_catch
       (let endpoint := authEndpoint isLogin in
        response ← apiCall token AuthEndpoint endpoint (authOptions formData);
        setToken (Some (access_token response));;
        localStorage_setItem "token" (access_token response);;
        setUser (Some (vendor response));;
        setCurrentView "dashboard";;
        setSuccess (if isLogin then "Login successful!" else "Registration successful!"))
       (fun error => setError (message error)))
    (setLoading false).

Definition handleLogout : M unit :=
  localStorage_removeItem "token";;
  setToken None;;
  setUser None;;
  setCurrentView "login";;
  setProducts [];;
  setOrders [].

Definition fetchProducts `{Host} (token : option string) : M unit :=
  try_catch
    (productsData ← apiCall token ProductsEndpoint "/api/products" no_options;
     setProducts productsData)
    (fun error => setError "Failed to fetch products").

Definition fetchOrders `{Host} (token : option string) : M unit :=
  try_catch
    (ordersData ← apiCall token OrdersEndpoint "/api/orders" no_options;
     setOrders ordersData)
    (fun error => setError "Failed to fetch orders").

Definition generateSampleOrders `{Host} (token : option string) : M unit :=
  setLoading true;;
  try_finally
    (try_catch
       (apiCall token AckEndpoint "/api/generate-sample-orders"
          (mk_options (Some "POST") None None);;
        setSuccess "Sample orders generated successfully!";;
        not_awaited (fetchOrders token))
       (fun error => setError (message error)))
    (setLoading false).

(** [String(value)] as [FormData.append] applies it to a value that is not
    a file. *)
Definition ToString `{Host} (value : InputValue) : string :=
  match value with
  | Text s => s
  | Number n => Number_toString n
  end.

(** The [FormData] of [handleProductSubmit]: [Object.keys(formData)] are
    name, price, description, quantity, category and images, in this
    order; every file of [images] is appended under the name images, every
    other value under its key. *)
Definition productFormData `{Host} (formData : ProductFormData.t) : list (string * FormValue) :=
  let form := [] in
  let form := form ++ [("name", FormText (ProductFormData.name formData))] in
  let form := form ++ [("price", FormText (ToString (ProductFormData.price formData)))] in
  let form := form ++ [("description", FormText (ProductFormData.description formData))] in
  let form := form ++ [("quantity", FormText (ToString (ProductFormData.quantity formData)))] in
  let form := form ++ [("category", FormText (ProductFormData.category formData))] in
  foldl (fun form file => form ++ [("images", FormFile file)]) form
        (ProductFormData.images formData).

(** [isEdit ? `/api/products/${productId}` : '/api/products']; [productId]
    is read only when [isEdit] holds, where it is the third piece of the
    view string (undefined when the view string has fewer pieces). *)
Definition productSubmit_url (isEdit : bool) (productId : option string) : string :=
  if isEdit then "/api/products/" +:+ Js.template productId else "/api/products".

(** [isEdit ? 'PUT' : 'POST']. *)
Definition productSubmit_method (isEdit : bool) : string :=
  if isEdit then "PUT" else "POST".

(** [{ method, body: form, headers: token ? { Authorization: `Bearer
    ${token}` } : {} }]. *)
Definition productSubmit_options `{Host} (token : option string)
    (formData : ProductFormData.t) (isEdit : bool) : Options :=
  mk_options (Some (productSubmit_method isEdit))
             (Some (BodyFormData (productFormData formData)))
             (Some (if Js.truthy token then bearer token else ∅)).

Definition handleProductSubmit `{Host} (token : option string)
    (formData : ProductFormData.t) (isEdit : bool) (productId : option string) : M unit :=
  setLoading true;;
  setError "";;
  try_finally
    (try_catch
       (apiCall token AckEndpoint (productSubmit_url isEdit productId)
          (productSubmit_options token formData isEdit);;
        setSuccess (if isEdit then "Product updated successfully!"
                    else "Product created successfully!");;
        not_awaited (fetchProducts token);;
        setCurrentView "products")
       (fun error => setError (message error)))
    (setLoading false).

Definition handleDeleteProduct `{Host} (token : option string) (productId : string) : M unit :=
  if window_confirm "Are you sure you want to delete this product?" then
    try_catch
      (apiCall token AckEndpoint ("/api/products/" +:+ productId)
         (mk_options (Some "DELETE") None None);;
       setSuccess "Product deleted successfully!";;
       not_awaited (fetchProducts token))
      (fun error => setError (message error))
  else mret tt.

(** ** The effects of [App] *)

(** [useEffect(() => { if (token) fetchUserProfile() }, [token])]. *)
Definition profileEffect `{Host} (render : AppState) : M unit :=
  when (Js.truthy (token render)) (not_awaited (fetchUserProfile (token render))).

(** [useEffect(..., [currentView, token])]: entering the products or the
    orders view with a token fetches the list. *)
Definition viewEffect `{Host} (render : AppState) : M unit :=
  when (String.eqb (currentView render) "products" && Js.truthy (token render))
       (not_awaited (fetchProducts (token render)));;
  when (String.eqb (currentView render) "orders" && Js.truthy (token render))
       (not_awaited (fetchOrders (token render))).

(** Whether a dependency changed since the previous render ([None]: this
    is the first render, every effect runs). *)
Definition changed {A} `{EqDecision A} (dep : AppState -> A)
    (previous : option AppState) (render : AppState) : bool :=
  match previous with
  | None => true
  | Some p => bool_decide (dep p ≠ dep render)
  end.

(** The effects of one render, each run when one of its dependencies
    changed. *)
Definition runEffects `{Host} (previous : option AppState) (render : AppState) : M unit :=
  when (changed token previous render) (profileEffect render);;
  when (changed (fun s => (currentView s, token s)) previous render) (viewEffect render).

(** Renders and effects until no dependency changes any more; the result
    says whether this happened within [fuel] renders. *)
Fixpoint commit `{Host} (fuel : nat) (previous : option AppState) : M bool :=
  match fuel with
  | O => mret false
  | S fuel' =>
      render ← getState;
      if changed token previous render
         || changed (fun s => (currentView s, token s)) previous render
      then runEffects previous render;; commit fuel' (Some render)
      else mret true
  end.

(** The first render: [useState] initial values, the token read from the
    local storage. *)
Definition firstRender (stored : option string) : AppState :=
  mk_state "login" None stored [] [] false "" "".

Definition initialState (storage : gmap string string) : AppState :=
  firstRender (localStorage_getItem storage "token").

Definition mount (storage : gmap string string) : World :=
  mk_world (initialState storage) storage [] [].

(** Loading the page: the first render and the effects that follow. *)
Definition startup `{Host} (fuel : nat) (storage : gmap string string) : outcome bool * World :=
  commit fuel None (mount storage).

(** A user event: the handler runs in the closure of the current render,
    then React renders again and runs the effects whose dependencies
    changed. An exception of the handler is reported outside the
    application and does not stop the rendering. *)
Definition event `{Host} (fuel : nat) (handler : AppState -> M unit) : M bool :=
  render ← getState;
  not_awaited (handler render);;
  commit fuel (Some render).

(** ** Components *)

Record NavigationProps := mk_navigation
  { nav_user : option Vendor.t;
    nav_currentView : string;
    nav_setCurrentView : string -> M unit;
    nav_onLogout : M unit }.

(** What [App] renders below the navigation bar, with the props it gives. *)
Inductive Element :=
| DashboardElement (products : list Product.t) (orders : list Order.t)
    (onGenerateSampleOrders : M unit) (loading : bool)
| ProductsViewElement (products : list Product.t) (onDelete : string -> M unit)
    (onEdit : Product.t -> M unit)
| ProductFormElement (product : option Product.t)
    (onSubmit : ProductFormData.t -> M unit) (onCancel : M unit)
    (loading : bool) (isEdit : bool)
| OrdersViewElement (orders : list Order.t).

Inductive Screen :=
| AuthScreenElement (onAuth : AuthForm.t -> bool -> M unit) (loading : bool)
    (error : string)
| Page (navigation : NavigationProps) (errorBanner successBanner : option string)
    (content : list Element).

(** [cond && <X />] inside JSX. *)
Definition shown {A} (cond : bool) (x : A) : list A := if cond then [x] else [].

(** [currentView.split('-')[2]]. *)
Definition viewProductId (currentView : string) : option string :=
  Js.split "-" currentView !! 2%nat.

(** The view string [onEdit] switches to: [`edit-product-${product.id}`]. *)
Definition editView (product : Product.t) : string :=
  "edit-product-" +:+ Product.id product.

(** The render of [App] in state [render]. *)
Definition App `{Host} (render : AppState) : Screen :=
  let currentView := currentView render in
  let token := token render in
  let products := products render in
  let orders := orders render in
  let loading := loading render in
  if negb (Js.truthy token) then
    AuthScreenElement (handleAuth token) loading (error render)
  else
    Page
      (mk_navigation (user render) currentView setCurrentView handleLogout)
      (if Js.truthy_string (error render) then Some (error render) else None)
      (if Js.truthy_string (success render) then Some (success render) else None)
      (shown (String.eqb currentView "dashboard")
         (DashboardElement products orders (generateSampleOrders token) loading)
       ++ shown (String.eqb currentView "products")
         (ProductsViewElement products (handleDeleteProduct token)
            (fun product => setCurrentView (editView product)))
       ++ shown (String.eqb currentView "add-product")
         (ProductFormElement None
            (fun data => handleProductSubmit token data false None)
            (setCurrentView "products") loading false)
       ++ shown (Js.startsWith currentView "edit-product-")
         (ProductFormElement
            (Js.find (fun p => Js.strict_eq (Product.id p) (viewProductId currentView))
                     products)
            (fun data => handleProductSubmit token data true (viewProductId currentView))
            (setCurrentView "products") loading true)
       ++ shown (String.eqb currentView "orders")
         (OrdersViewElement orders)).

Module Navigation.

(** The ids of [navItems]. *)
Definition navItems : list string := ["dashboard"; "products"; "orders"].

(** [Welcome, {user?.name}]. *)
Definition welcome (user : option Vendor.t) : string :=
  "Welcome, " +:+ match user with Some u => Vendor.name u | None => "" end.

End Navigation.

Module Dashboard.

Definition totalProducts (products : list Product.t) : nat := length products.

Definition totalOrders (orders : list Order.t) : nat := length orders.

Definition totalRevenue (orders : list Order.t) : float :=
  Js.reduce (fun sum order => PrimFloat.add sum (Order.total_price order)) 0%float orders.

Definition recentOrders (orders : list Order.t) : list Order.t := Js.slice0 5 orders.

End Dashboard.

Module ProductsView.

(** The names the component binds: its destructured props. *)
Definition params : list string := ["products"; "onDelete"; "onEdit"].

(** The names the module binds at top level: the imports, the constant
    and the components. *)
Definition module_scope : list string :=
  ["React"; "useState"; "useEffect"; "API_BASE_URL"; "App"; "AuthScreen";
   "Navigation"; "Dashboard"; "ProductsView"; "ProductForm"; "OrdersView"].

(** The scopes around the click handler of the Add Product button, from
    the innermost: its own (empty) parameter list, the component, the
    module, the global object. *)
Definition scope_chain `{Host} : list (list string) :=
  [[]; params; module_scope; global_names].

(** Calling a free identifier with a string: a reference error when no
    scope of the chain binds it; otherwise [callee], what the binding
    does. *)
Definition call_identifier (chain : list (list string)) (x : string)
    (callee : M unit) : M unit :=
  if bool_decide (x ∈ concat chain) then callee
  else throw (ReferenceError (x +:+ " is not defined")).

(** [onClick={() => setCurrentView('add-product')}]: no scope inside the
    module binds [setCurrentView], so a binding could only be a global. *)
Definition onAddProductClick `{Host} : M unit :=
  call_identifier scope_chain "setCurrentView"
    (global_call "setCurrentView" "add-product").

(** The Edit and Delete buttons of a product card. *)
Definition onEditClick (onEdit : Product.t -> M unit) (product : Product.t) : M unit :=
  onEdit product.

Definition onDeleteClick (onDelete : string -> M unit) (product : Product.t) : M unit :=
  onDelete (Product.id product).

End ProductsView.

Module ProductForm.

(** [product?.field || ''] for a number field. *)
Definition number_or_empty (n : option float) : InputValue :=
  match n with
  | Some x => if Js.truthy_number x then Number x else Text ""
  | None => Text ""
  end.

(** The initial [formData]. *)
Definition initialFormData (product : option Product.t) : ProductFormData.t :=
  ProductFormData.mk
    (Js.or_else (Product.name <$> product) "")
    (number_or_empty (Product.price <$> product))
    (Js.or_else (Product.description <$> product) "")
    (number_or_empty (Product.quantity <$> product))
    (Js.or_else (Product.category <$> product) "")
    [].

(** [handleSubmit]: the form state goes to [onSubmit]. *)
Definition handleSubmit (onSubmit : ProductFormData.t -> M unit)
    (formData : ProductFormData.t) : M unit :=
  onSubmit formData.

End ProductForm.

Module OrdersView.

Definition statuses : list string :=
  ["all"; "pending"; "confirmed"; "shipped"; "delivered"; "cancelled"].

(** The initial value of the local state [filter]. *)
Definition initialFilter : string := "all".

Definition filteredOrders (orders : list Order.t) (filter : string) : list Order.t :=
  if String.eqb filter "all" then orders
  else Js.filter (fun order => String.eqb (Order.status order) filter) orders.

(** The page while the Orders view is shown: the world of [App] and the
    local state of the component. *)
Record Ui := mk_ui { world : World; filter : string }.

(** [onChange={(e) => setFilter(e.target.value)}]: the local state alone
    changes. *)
Definition onFilterChange (value : string) (ui : Ui) : Ui :=
  mk_ui (world ui) value.

End OrdersView.

(** ** Session states *)

(** The session is authenticated when a token is held (truthy, as [App]
    tests it) and the profile is loaded; anonymous when no token is held. *)
Definition authenticated (s : AppState) : Prop :=
  Js.truthy (token s) = true ∧ is_Some (user s).

Definition anonymous (s : AppState) : Prop := Js.truthy (token s) = false.

(** The requests a computation adds to those already made all satisfy [P]. *)
Definition issues {A} (P : Request -> Prop) (m : M A) : Prop :=
  ∀ w, ∃ new, requests (snd (m w)) = requests w ++ new ∧ Forall P new.

(** The Authorization header of a render whose token is [token]: the
    word Bearer, a space and the token when a token is held, and none when
    the token is null or the empty string. *)
Definition held_header (token : option string) : option string :=
  match token with
  | Some s => if decide (s = "") then None else Some ("Bearer " +:+ s)
  | None => None
  end.

(** The bearer header a request built for [token] must carry. *)
Definition bearer_of (token : option string) (request : Request) : Prop :=
  init_headers request !! "Authorization" = held_header token.

(** The user events and effects of [App] that may call the API, in the
    closure of one render. *)
Inductive Action :=
| ProfileFetch
| Auth (formData : AuthForm.t) (isLogin : bool)
| Logout
| ProductsFetch
| OrdersFetch
| GenerateSampleOrders
| ProductSubmit (formData : ProductFormData.t) (isEdit : bool) (productId : option string)
| ProductDelete (productId : string).

Definition dispatch `{Host} (token : option string) (a : Action) : M unit :=
  match a with
  | ProfileFetch => fetchUserProfile token
  | Auth formData isLogin => handleAuth token formData isLogin
  | Logout => handleLogout
  | ProductsFetch => fetchProducts token
  | OrdersFetch => fetchOrders token
  | GenerateSampleOrders => generateSampleOrders token
  | ProductSubmit formData isEdit productId =>
      handleProductSubmit token formData isEdit productId
  | ProductDelete productId => handleDeleteProduct token productId
  end.

(** A computation that never throws. *)
Definition returns {A} (m : M A) : Prop := ∀ w, ∃ a, fst (m w) = Returned a.

(** What identifies the session: the token and the profile of the state
    and the content of the local storage. *)
Definition session (w : World) : option string * option Vendor.t * gmap string string :=
  (token (state w), user (state w), localStorage w).

(** A computation that leaves a part of the world as it is. *)
Definition keeps {A B} (part : World -> B) (m : M A) : Prop :=
  ∀ w, part (snd (m w)) = part w.

(** The actions that are about the session itself. *)
Definition session_action (a : Action) : bool :=
  match a with
  | ProfileFetch | Auth _ _ | Logout => true
  | _ => false
  end.

(** The actions that raise the loading flag. *)
Definition busy_action (a : Action) : bool :=
  match a with
  | Auth _ _ | GenerateSampleOrders | ProductSubmit _ _ _ => true
  | _ => false
  end.

(** The calls of [apiCall] an action can reach, as written at the call
    sites: the path and the options. *)
Definition call_sites `{Host} (token : option string) (a : Action) : list (string * Options) :=
  match a with
  | ProfileFetch => [("/api/vendor/profile", no_options)]
  | Auth formData isLogin => [(authEndpoint isLogin, authOptions formData)]
  | Logout => []
  | ProductsFetch => [("/api/products", no_options)]
  | OrdersFetch => [("/api/orders", no_options)]
  | GenerateSampleOrders =>
      [("/api/generate-sample-orders", mk_options (Some "POST") None None);
       ("/api/orders", no_options)]
  | ProductSubmit formData isEdit productId =>
      [(productSubmit_url isEdit productId, productSubmit_options token formData isEdit);
       ("/api/products", no_options)]
  | ProductDelete productId =>
      [("/api/products/" +:+ productId, mk_options (Some "DELETE") None None);
       ("/api/products", no_options)]
  end.

(** A click on an item of the navigation bar:
    [onClick={() => setCurrentView(item.id)}]. *)
Definition navItemClick (navigation : NavigationProps) (item : string) : M unit :=
  nav_setCurrentView navigation item.

(** The views [App] knows. *)
Definition known_view (currentView : string) : bool :=
  String.eqb currentView "dashboard" || String.eqb currentView "products"
  || String.eqb currentView "add-product" || Js.startsWith currentView "edit-product-"
  || String.eqb currentView "orders".

(** The view an element of the page belongs to. *)
Definition element_of_view (currentView : string) (element : Element) : Prop :=
  match element with
  | DashboardElement _ _ _ _ => currentView = "dashboard"
  | ProductsViewElement _ _ _ => currentView = "products"
  | ProductFormElement _ _ _ _ isEdit =>
      if isEdit then Js.startsWith currentView "edit-product-" = true
      else currentView = "add-product"
  | OrdersViewElement _ => currentView = "orders"
  end.

(** ** Sample data *)

Module Sample.

Definition vendorA : Vendor.t :=
  Vendor.mk "v1" "A" "A Trading" "a@b.com" "+233200000000".

(** The texts V8 gives the TypeErrors. *)
Definition v8Message (fault : Fault) : string :=
  match fault with
  | ReadOfNull key => "Cannot read properties of null (reading '" +:+ key +:+ "')"
  | NoPrimitive => "Cannot convert object to primitive value"
  end.

(** The body of a refusal: [{ detail: message }]. *)
Definition refusal (message : string) : Value :=
  VObject [("detail", VString message)].

(** The body of a validation failure, whose detail is a list of records:
    [{ detail: [{ loc: ['body', 'email'], msg: 'field required' }] }]. *)
Definition invalid : Value :=
  VObject [("detail",
            VArray [VObject [("loc", VArray [VString "body"; VString "email"]);
                             ("msg", VString "field required")]])].

(** A body whose detail cannot be converted to a string:
    [{ detail: { toString: 1 } }]. *)
Definition unprintable : Value :=
  VObject [("detail", VObject [("toString", VNumber 1)])].

(** A host whose backend gives fixed answers; the product and order lists
    are empty and no global is called setCurrentView. The samples send no
    number, so the number printer is a stub. *)
Definition host (auth : Fetched AuthResponse) (profile : Fetched Vendor.t)
    (ack : Fetched unit) : Host :=
  mk_host None (fun _ => "NaN")
    (fun e _ _ =>
       match e return Fetched (payload e) with
       | AuthEndpoint => auth
       | ProfileEndpoint => profile
       | ProductsEndpoint => Resolved (Success (Parsed []))
       | OrdersEndpoint => Resolved (Success (Parsed []))
       | AckEndpoint => ack
       end)
    (fun _ => true)
    ["window"; "localStorage"; "fetch"; "console"; "process"; "FormData";
     "Object"; "JSON"; "Array"; "Date"; "Error"]
    (fun _ _ => mret tt)
    v8Message.

Definition offline {A} : Fetched A := Rejected (mk_exn "TypeError" "Failed to fetch").

(** Login answered with a token and the profile of vendor A. *)
Definition loginHost : Host :=
  host (Resolved (Success (Parsed (Build_AuthResponse "t1" vendorA))))
       (Resolved (Success (Parsed vendorA)))
       (Resolved (Success (Parsed tt))).

(** A host whose login endpoint fails with the body [body]. *)
Definition failingHost (body : Value) : Host :=
  host (Resolved (Failure (Parsed body))) offline offline.

(** Every call refused with a message in the detail field. *)
Definition refusingHost : Host :=
  host (Resolved (Failure (Parsed (refusal "Invalid credentials"))))
       (Resolved (Failure (Parsed (refusal "Could not validate credentials"))))
       (Resolved (Failure (Parsed (VObject [])))).

(** A proxy in front of the backend answers with a page that is not
    JSON; the parser rejects it. *)
Definition notJson : exn := mk_exn "SyntaxError" "Unexpected token < in JSON at position 0".

Definition proxyHost : Host :=
  host (Resolved (Failure (Unparsable notJson)))
       (Resolved (Failure (Unparsable notJson)))
       (Resolved (Success (Unparsable notJson))).

Definition loginForm : AuthForm.t := AuthForm.mk "a@b.com" "x" "" "" "".

(** A product whose id has the shape of a UUID. *)
Definition shoe : Product.t :=
  Product.mk "3f2b8c1e-77aa-4d10-9c55-0a1b2c3d4e5f" "Shoe" "Leather shoe"
             49.5%float 3%float "Clothing" [].

(** A product whose id has no hyphen. *)
Definition lamp : Product.t :=
  Product.mk "42" "Lamp" "Desk lamp" 20%float 7%float "Home & Garden" [].

(** The product form as typed by the user. *)
Definition lampForm : ProductFormData.t :=
  ProductFormData.mk "Lamp" (Text "20") "Desk lamp" (Text "7") "Home & Garden" [].

Definition order (id : string) (total_price : float) (status : string) : Order.t :=
  Order.mk id "Shoe" None "Ama" "ama@example.com" 1%float total_price status
           "2024-01-01T00:00:00".

Definition someOrders : list Order.t :=
  [order "o1" 0.5%float "pending"; order "o2" 0.25%float "shipped";
   order "o3" 2%float "pending"].

End Sample.

(** Further samples. *)
Module Scenario.

(** A host without network, whose user declines every confirmation. *)
Definition offlineHost : Host :=
  mk_host None (fun _ => "NaN") (fun e _ _ => Sample.offline) (fun _ => false)
          ["window"; "localStorage"; "fetch"] (fun _ _ => mret tt) Sample.v8Message.

(** A backend that accepts the login and then refuses the profile. *)
Definition staleHost : Host :=
  Sample.host (Resolved (Success (Parsed (Build_AuthResponse "t1" Sample.vendorA))))
              (Resolved (Failure (Parsed (Sample.refusal "Could not validate credentials"))))
              (Resolved (Success (Parsed tt))).


(** The dashboard of vendor A, logged in with the token t1. *)
Definition dashboard : World :=
  mk_world
    (mk_state "dashboard" (Some Sample.vendorA) (Some "t1") [Sample.lamp]
       Sample.someOrders false "" "")
    {[ "token" := "t1" ]} [] [].

End Scenario.

(** * Properties *)

Section MonadFacts.
Context {A B : Type} (P : Request -> Prop).

Lemma issues_ret (a : A) : issues P (mret a : M A).
Proof. intros w. exists []. split; [by rewrite app_nil_r | constructor]. Qed.

Lemma issues_throw (e : exn) : issues P (throw e : M A).
Proof. intros w. exists []. split; [by rewrite app_nil_r | constructor]. Qed.

Lemma issues_bind (m : M A) (k : A -> M B) :
  issues P m → (∀ a, issues P (k a)) → issues P (m ≫= k).
Proof.
  intros Hm Hk w. unfold mbind, M_bind.
  destruct (Hm w) as (new1 & E1 & F1). destruct (m w) as [[a|e] w1]; simpl in *.
  - destruct (Hk a w1) as (new2 & E2 & F2).
    exists (new1 ++ new2). rewrite E2, E1, app_assoc. split; [done | by apply Forall_app].
  - by exists new1.
Qed.

Lemma issues_try_catch (m : M A) (handler : exn -> M A) :
  issues P m → (∀ e, issues P (handler e)) → issues P (try_catch m handler).
Proof.
  intros Hm Hh w. unfold try_catch.
  destruct (Hm w) as (new1 & E1 & F1). destruct (m w) as [[a|e] w1]; simpl in *.
  - by exists new1.
  - destruct (Hh e w1) as (new2 & E2 & F2).
    exists (new1 ++ new2). rewrite E2, E1, app_assoc. split; [done | by apply Forall_app].
Qed.

Lemma issues_try_finally (m : M A) (cleanup : M unit) :
  issues P m → issues P cleanup → issues P (try_finally m cleanup).
Proof.
  intros Hm Hc w. unfold try_finally.
  destruct (Hm w) as (new1 & E1 & F1). destruct (m w) as [r w1]; simpl in *.
  destruct (Hc w1) as (new2 & E2 & F2). destruct (cleanup w1) as [[[]|e] w2]; simpl in *;
    exists (new1 ++ new2); rewrite E2, E1, app_assoc; (split; [done | by apply Forall_app]).
Qed.

End MonadFacts.

Section Quiet.
Context (P : Request -> Prop).

Lemma issues_modify f : issues P (modify f).
Proof. intros w. exists []. split; [by rewrite app_nil_r | constructor]. Qed.

Lemma issues_getState : issues P getState.
Proof. intros w. exists []. split; [by rewrite app_nil_r | constructor]. Qed.

Lemma issues_setItem k v : issues P (localStorage_setItem k v).
Proof. intros w. exists []. split; [by rewrite app_nil_r | constructor]. Qed.

Lemma issues_removeItem k : issues P (localStorage_removeItem k).
Proof. intros w. exists []. split; [by rewrite app_nil_r | constructor]. Qed.

Lemma issues_console_error l e : issues P (console_error l e).
Proof. intros w. exists []. split; [by rewrite app_nil_r | constructor]. Qed.

Lemma issues_await_json {A} (j : Json A) : issues P (await_json j).
Proof. destruct j; [apply issues_ret | apply issues_throw]. Qed.

Lemma issues_when b m : issues P m → issues P (when b m).
Proof. destruct b; [done | intros _; apply issues_ret]. Qed.

Lemma issues_not_awaited m : issues P m → issues P (not_awaited m).
Proof. intros Hm. apply issues_try_catch; [done | intros; apply issues_ret]. Qed.

Lemma issues_await_fetch `{Host} e request : P request → issues P (await_fetch e request).
Proof.
  intros HP w. exists [request]. unfold await_fetch.
  destruct (fetch e (requests w) request); simpl; (split; [done | by repeat constructor]).
Qed.

Lemma issues_read_detail `{Host} errorData : issues P (read_detail errorData).
Proof. destruct errorData; first [apply issues_throw | apply issues_ret]. Qed.

Lemma issues_new_Error `{Host} detail : issues P (new_Error detail).
Proof.
  destruct detail as [value|]; simpl; [| apply issues_ret].
  destruct (truthy_value value); [| apply issues_ret].
  destruct (ToString_value value); [apply issues_ret | apply issues_throw].
Qed.

Lemma issues_apiCall `{Host} token e url options :
  P (apiCall_request token url options) → issues P (apiCall token e url options).
Proof.
  intros HP. unfold apiCall. apply issues_bind; [by apply issues_await_fetch |].
  intros [json|json].
  - apply issues_await_json.
  - apply issues_bind; [apply issues_await_json | intros errorData].
    apply issues_bind; [apply issues_read_detail | intros detail].
    apply issues_bind; [apply issues_new_Error | intros; apply issues_throw].
Qed.

End Quiet.

(** Steps that issue no request. *)
Ltac quiet :=
  first [ apply issues_modify | apply issues_setItem | apply issues_removeItem
        | apply issues_console_error | apply issues_getState | apply issues_ret
        | apply issues_throw | apply issues_await_json ].

(** A sequence of such steps. *)
Ltac quiet_steps := repeat (apply issues_bind; [quiet | intros]); quiet.

Section Bearer.
Context `{Host}.

Lemma own_headers_authorization token (extra : gmap string string) :
  extra !! "Authorization" = None →
  (extra ∪ ((if Js.truthy token then bearer token else ∅)
            ∪ {[ "Content-Type" := "application/json" ]})) !! "Authorization"
  = held_header token.
Proof.
  intros Hextra. rewrite lookup_union_r by done.
  destruct token as [[|c s]|]; simpl; unfold bearer.
  - by rewrite lookup_union_r, lookup_singleton_ne by done.
  - by rewrite lookup_union_l', lookup_singleton_eq by (rewrite lookup_singleton_eq; eauto).
  - by rewrite lookup_union_r, lookup_singleton_ne by done.
Qed.

(** A caller that passes no headers of its own gets the bearer header of
    the token. *)
Lemma bearer_of_plain token url options :
  headers options = None → bearer_of token (apiCall_request token url options).
Proof.
  intros Hnone. unfold bearer_of, apiCall_request, apiCall_headers, spread. simpl.
  rewrite Hnone. simpl. by apply own_headers_authorization.
Qed.

(** [handleProductSubmit] passes the same bearer header again. *)
Lemma bearer_of_product_submit token url formData isEdit :
  bearer_of token (apiCall_request token url (productSubmit_options token formData isEdit)).
Proof.
  unfold bearer_of, apiCall_request, apiCall_headers, spread. simpl.
  destruct token as [[|c s]|]; simpl.
  - rewrite (left_id_L ∅ (∪)).
    by rewrite (left_id_L ∅ (∪)), lookup_singleton_ne.
  - unfold bearer. by rewrite lookup_union_l', lookup_singleton_eq
      by (rewrite lookup_singleton_eq; eauto).
  - rewrite (left_id_L ∅ (∪)).
    by rewrite (left_id_L ∅ (∪)), lookup_singleton_ne.
Qed.

Lemma issues_fetchUserProfile token : issues (bearer_of token) (fetchUserProfile token).
Proof.
  unfold fetchUserProfile. apply issues_try_catch.
  - apply issues_bind; [by apply (issues_apiCall _ _ ProfileEndpoint), bearer_of_plain |].
    intros. apply issues_bind; [apply issues_modify | intros; apply issues_modify].
  - intros. quiet_steps.
Qed.

Lemma issues_fetchProducts token : issues (bearer_of token) (fetchProducts token).
Proof.
  unfold fetchProducts. apply issues_try_catch; [| intros; apply issues_modify].
  apply issues_bind; [by apply (issues_apiCall _ _ ProductsEndpoint), bearer_of_plain | intros; apply issues_modify].
Qed.

Lemma issues_fetchOrders token : issues (bearer_of token) (fetchOrders token).
Proof.
  unfold fetchOrders. apply issues_try_catch; [| intros; apply issues_modify].
  apply issues_bind; [by apply (issues_apiCall _ _ OrdersEndpoint), bearer_of_plain | intros; apply issues_modify].
Qed.

Lemma issues_handleAuth token formData isLogin :
  issues (bearer_of token) (handleAuth token formData isLogin).
Proof.
  unfold handleAuth. do 2 (apply issues_bind; [apply issues_modify | intros]).
  apply issues_try_finally; [| apply issues_modify].
  apply issues_try_catch; [| intros; apply issues_modify].
  apply issues_bind; [by apply (issues_apiCall _ _ AuthEndpoint), bearer_of_plain | intros].
  quiet_steps.
Qed.

Lemma issues_handleLogout P : issues P handleLogout.
Proof.
  unfold handleLogout.
  quiet_steps.
Qed.

Lemma issues_generateSampleOrders token :
  issues (bearer_of token) (generateSampleOrders token).
Proof.
  unfold generateSampleOrders. apply issues_bind; [apply issues_modify | intros].
  apply issues_try_finally; [| apply issues_modify].
  apply issues_try_catch; [| intros; apply issues_modify].
  apply issues_bind; [by apply (issues_apiCall _ _ AckEndpoint), bearer_of_plain | intros].
  apply issues_bind; [apply issues_modify | intros].
  apply issues_not_awaited, issues_fetchOrders.
Qed.

Lemma issues_handleProductSubmit token formData isEdit productId :
  issues (bearer_of token) (handleProductSubmit token formData isEdit productId).
Proof.
  unfold handleProductSubmit. do 2 (apply issues_bind; [apply issues_modify | intros]).
  apply issues_try_finally; [| apply issues_modify].
  apply issues_try_catch; [| intros; apply issues_modify].
  apply issues_bind; [apply (issues_apiCall _ _ AckEndpoint), bearer_of_product_submit | intros].
  apply issues_bind; [apply issues_modify | intros].
  apply issues_bind; [apply issues_not_awaited, issues_fetchProducts | intros].
  apply issues_modify.
Qed.

Lemma issues_handleDeleteProduct token productId :
  issues (bearer_of token) (handleDeleteProduct token productId).
Proof.
  unfold handleDeleteProduct. destruct (window_confirm _); [| apply issues_ret].
  apply issues_try_catch; [| intros; apply issues_modify].
  apply issues_bind; [by apply (issues_apiCall _ _ AckEndpoint), bearer_of_plain | intros].
  apply issues_bind; [apply issues_modify | intros].
  apply issues_not_awaited, issues_fetchProducts.
Qed.

(** C3. Every request an action of [App] issues, in a render that holds the
    token [s], carries the header Authorization: Bearer [s]; when the
    render holds no token (null or the empty string), none of its requests
    has an Authorization header. *)
Theorem every_request_carries_the_bearer_token (token : option string) (a : Action) (w : World) :
  ∃ new : list Request,
    requests (snd (dispatch token a w)) = requests w ++ new
    ∧ Forall (fun request =>
        init_headers request !! "Authorization"
        = match token with
          | Some s => if decide (s = "") then None else Some ("Bearer " +:+ s)
          | None => None
          end) new.
Proof.
  revert w. change (issues (bearer_of token) (dispatch token a)).
  destruct a; simpl.
  - apply issues_fetchUserProfile.
  - apply issues_handleAuth.
  - apply issues_handleLogout.
  - apply issues_fetchProducts.
  - apply issues_fetchOrders.
  - apply issues_generateSampleOrders.
  - apply issues_handleProductSubmit.
  - apply issues_handleDeleteProduct.
Qed.

End Bearer.

Section ApiCall.
Context `{Host}.

(** What [apiCall] does, by the answer of the network. *)
Lemma apiCall_run token e url options w :
  apiCall token e url options w =
  let request := apiCall_request token url options in
  (match fetch e (requests w) request with
   | Resolved (Success (Parsed value)) => Returned value
   | Resolved (Success (Unparsable err)) => Thrown err
   | Resolved (Failure (Parsed errorData)) => Thrown (rejection errorData)
   | Resolved (Failure (Unparsable err)) => Thrown err
   | Rejected err => Thrown err
   end, sent request w).
Proof.
  unfold apiCall, mbind, M_bind, await_fetch. simpl.
  destruct (fetch e (requests w) _) as [[[value|err]|[errorData|err]]|err];
    try reflexivity.
  destruct errorData as [| | | | |members]; try reflexivity.
  unfold rejection. simpl. unfold new_Error.
  destruct (member members "detail") as [value|]; [| reflexivity].
  destruct (truthy_value value); [| reflexivity].
  by destruct (ToString_value value).
Qed.

Lemma apiCall_world token e url options w :
  snd (apiCall token e url options w) = sent (apiCall_request token url options) w.
Proof. by rewrite apiCall_run. Qed.

End ApiCall.

Lemma truthy_string_true (s : string) : s ≠ "" → Js.truthy_string s = true.
Proof. by destruct s. Qed.

Section Client.
Context `{Host}.

(** C4 (amended). A response with a non-success status whose body parses
    as JSON makes [apiCall] fail as follows. A body that is null fails with
    the TypeError of reading detail of null. A body that is an object whose
    detail member is truthy fails with an Error whose message is that
    member converted to a string: the member itself when it is a non-empty
    string; when the conversion throws, the failure is its TypeError. Any
    other body (no detail member, a falsy one, or a body that is not an
    object) fails with the Error of the generic message. A response with a
    success status whose body parses raises no error and yields the parsed
    body. When the body does not parse, the failure is the rejection of the
    parser, whatever the status; when the fetch itself rejects, the failure
    is that rejection. *)
Theorem apiCall_failure_message (token : option string) (e : Endpoint) (url : string)
    (options : Options) (w : World) :
  let answer := fetch e (requests w) (apiCall_request token url options) in
  let result := fst (apiCall token e url options w) in
  (answer = Resolved (Failure (Parsed VNull)) →
        result = Thrown (TypeError (TypeError_message (ReadOfNull "detail"))))
  ∧ (∀ members s, s ≠ "" → member members "detail" = Some (VString s) →
        answer = Resolved (Failure (Parsed (VObject members))) →
        result = Thrown (Error s))
  ∧ (∀ errorData value message, answer = Resolved (Failure (Parsed errorData)) →
        detail_of errorData = Some value → truthy_value value = true →
        ToString_value value = Some message →
        result = Thrown (Error message))
  ∧ (∀ errorData value, answer = Resolved (Failure (Parsed errorData)) →
        detail_of errorData = Some value → truthy_value value = true →
        ToString_value value = None →
        result = Thrown (TypeError (TypeError_message NoPrimitive)))
  ∧ (∀ errorData, answer = Resolved (Failure (Parsed errorData)) →
        errorData ≠ VNull →
        (∀ value, detail_of errorData = Some value → truthy_value value = false) →
        result = Thrown (Error "An error occurred"))
  ∧ (∀ value, answer = Resolved (Success (Parsed value)) → result = Returned value)
  ∧ (∀ err, answer = Resolved (Failure (Unparsable err)) → result = Thrown err)
  ∧ (∀ err, answer = Resolved (Success (Unparsable err)) → result = Thrown err)
  ∧ (∀ err, answer = Rejected err → result = Thrown err).
Proof.
  intros answer result. subst answer result. rewrite apiCall_run. simpl.
  split; [by intros -> |].
  split.
  { intros members s Hs Hd ->. unfold rejection. cbn [detail_of]. rewrite Hd.
    cbn [truthy_value ToString_value]. by rewrite truthy_string_true. }
  split.
  { intros errorData value message -> Hd Ht Hm. unfold rejection.
    rewrite Hd, Ht, Hm. by destruct errorData. }
  split.
  { intros errorData value -> Hd Ht Hm. unfold rejection.
    rewrite Hd, Ht, Hm. by destruct errorData. }
  split.
  { intros errorData -> Hnull Hfalsy. unfold rejection.
    destruct (detail_of errorData) as [value|] eqn:Hd.
    - rewrite (Hfalsy value eq_refl). by destruct errorData.
    - by destruct errorData. }
  split; [by intros value -> |].
  split; [by intros err -> |].
  split; by intros err ->.
Qed.

Lemma requests_extend {A} (m : M A) (P : Request -> Prop) (w : World) :
  issues P m → ∃ new, requests (snd (m w)) = requests w ++ new.
Proof. intros Hm. destruct (Hm w) as (new & Hnew & _). eauto. Qed.

(** The first request of a product submission. *)
Lemma handleProductSubmit_request held formData isEdit productId w :
  ∃ later,
    requests (snd (handleProductSubmit held formData isEdit productId w))
    = requests w
      ++ apiCall_request held (productSubmit_url isEdit productId)
           (productSubmit_options held formData isEdit) :: later.
Proof.
  unfold handleProductSubmit, try_finally, try_catch, mbind, M_bind.
  cbn [setLoading setError modify]. rewrite apiCall_run.
  cbn [state requests localStorage console].
  destruct (fetch AckEndpoint (requests w) _)
    as [[[value|err]|[errorData|err]]|err]; cbn; try (exists []; done).
  unfold not_awaited, try_catch.
  match goal with |- context [fetchProducts held ?w1] =>
    destruct (requests_extend (fetchProducts held) _ w1 (issues_fetchProducts held))
      as (new & Hnew);
    destruct (fetchProducts held w1) as [[[]|e] w2]
  end; cbn in *; exists new; by rewrite Hnew, <- app_assoc.
Qed.

(** The one request of a login or registration, whatever its outcome. *)
Lemma handleAuth_requests held formData isLogin w :
  requests (snd (handleAuth held formData isLogin w))
  = requests w ++ [apiCall_request held (authEndpoint isLogin) (authOptions formData)].
Proof.
  unfold handleAuth, try_finally, try_catch, mbind, M_bind.
  cbn [setLoading setError modify]. rewrite apiCall_run.
  cbn [state requests localStorage console].
  by destruct (fetch AuthEndpoint (requests w) _)
    as [[[value|err]|[errorData|err]]|err].
Qed.

(** C2 (amended). [apiCall] hands the body of the caller to [fetch] as it
    is, whatever it is: it serializes nothing itself. The JSON text of a
    login or registration is made by [handleAuth] before the call, and the
    multipart body of a product by [handleProductSubmit]; both go out as
    made. When the response is a success whose body parses, [apiCall]
    returns the parsed body. *)
Theorem apiCall_passes_body_through (token : option string) (e : Endpoint) (url : string)
    (options : Options) (w : World) :
  init_body (apiCall_request token url options) = body options
  ∧ (∀ formData isLogin, ∃ request,
       requests (snd (handleAuth token formData isLogin w)) = requests w ++ [request]
       ∧ init_body request
         = Some (BodyText (Js.JSON_stringify (AuthForm.fields formData))))
  ∧ (∀ formData isEdit productId, ∃ request later,
       requests (snd (handleProductSubmit token formData isEdit productId w))
       = requests w ++ request :: later
       ∧ init_body request = Some (BodyFormData (productFormData formData)))
  ∧ (∀ value, fetch e (requests w) (apiCall_request token url options)
                = Resolved (Success (Parsed value)) →
       apiCall token e url options w
       = (Returned value, sent (apiCall_request token url options) w)).
Proof.
  split; [done |]. split; [| split].
  - intros formData isLogin. eexists. split; [apply handleAuth_requests | done].
  - intros formData isEdit productId.
    destruct (handleProductSubmit_request token formData isEdit productId w)
      as (later & Hlater).
    eexists _, later. split; [exact Hlater | done].
  - intros value Hfetch. rewrite apiCall_run. simpl. by rewrite Hfetch.
Qed.

(** The multipart request of [handleProductSubmit] keeps the JSON content
    type: the headers it passes do not replace the one [apiCall] sets. *)
Lemma product_submit_content_type token url formData isEdit :
  init_headers (apiCall_request token url (productSubmit_options token formData isEdit))
    !! "Content-Type" = Some "application/json".
Proof.
  unfold apiCall_request, apiCall_headers, spread. simpl.
  destruct (Js.truthy token); unfold bearer.
  - rewrite lookup_union_r by by rewrite lookup_singleton_ne.
    rewrite lookup_union_r by by rewrite lookup_singleton_ne.
    by rewrite lookup_singleton_eq.
  - by rewrite !(left_id_L ∅ (∪)), lookup_singleton_eq.
Qed.

(** What a successful login or registration leaves behind. *)
Lemma handleAuth_success token formData isLogin w response :
  fetch AuthEndpoint (requests w)
        (apiCall_request token (authEndpoint isLogin) (authOptions formData))
    = Resolved (Success (Parsed response)) →
  handleAuth token formData isLogin w
  = (Returned tt,
     mk_world
       (mk_state "dashboard" (Some (vendor response)) (Some (access_token response))
          (products (state w)) (orders (state w)) false ""
          (if isLogin then "Login successful!" else "Registration successful!"))
       (<["token" := access_token response]> (localStorage w))
       (requests w ++ [apiCall_request token (authEndpoint isLogin) (authOptions formData)])
       (console w)).
Proof.
  intros Hfetch. unfold handleAuth, try_finally, try_catch, mbind, M_bind.
  simpl. rewrite apiCall_run. simpl. by rewrite Hfetch.
Qed.

(** C7. A login or registration whose request succeeds, returning a token
    and a vendor profile, leaves the session authenticated with that
    profile, the token stored under the key token of the local storage and
    the dashboard as the current view; the page rendered then greets the
    vendor by name. *)
Theorem successful_auth_opens_session (held : option string) (formData : AuthForm.t)
    (isLogin : bool) (w : World) (response : AuthResponse) :
  fetch AuthEndpoint (requests w)
        (apiCall_request held (authEndpoint isLogin) (authOptions formData))
    = Resolved (Success (Parsed response)) →
  access_token response ≠ "" →
  let result := handleAuth held formData isLogin w in
  let s := state (snd result) in
  fst result = Returned tt
  ∧ authenticated s
  ∧ token s = Some (access_token response)
  ∧ user s = Some (vendor response)
  ∧ localStorage (snd result) !! "token" = Some (access_token response)
  ∧ currentView s = "dashboard"
  ∧ loading s = false
  ∧ ∃ navigation errorBanner successBanner dashboard,
      App s = Page navigation errorBanner successBanner [dashboard]
      ∧ dashboard = DashboardElement (products s) (orders s)
                      (generateSampleOrders (Some (access_token response))) false
      ∧ Navigation.welcome (nav_user navigation)
        = "Welcome, " +:+ Vendor.name (vendor response).
Proof.
  intros Hfetch Htoken result s. subst s result.
  rewrite (handleAuth_success _ _ _ _ _ Hfetch). simpl.
  pose proof (truthy_string_true _ Htoken) as Htruthy.
  repeat split; try done.
  - by rewrite lookup_insert_eq.
  - unfold App. simpl. rewrite Htruthy. simpl. eauto 10.
Qed.

End Client.

Section Startup.
Context `{Host}.

Lemma changed_same {A} `{EqDecision A} (dep : AppState -> A) p render :
  dep p = dep render → changed dep (Some p) render = false.
Proof. intros Heq. unfold changed. apply bool_decide_eq_false_2. by intros Hne. Qed.

Lemma changed_other {A} `{EqDecision A} (dep : AppState -> A) p render :
  dep p ≠ dep render → changed dep (Some p) render = true.
Proof. intros Hne. unfold changed. by apply bool_decide_eq_true_2. Qed.

(** A render whose dependencies are those of the previous one runs no
    effect. *)
Lemma commit_settled fuel (previous : AppState) (w : World) :
  token previous = token (state w) →
  currentView previous = currentView (state w) →
  commit (S fuel) (Some previous) w = (Returned true, w).
Proof.
  intros Htoken Hview. cbn [commit]. unfold mbind, M_bind, getState.
  rewrite !changed_same; [done | | done]. simpl. by rewrite Htoken, Hview.
Qed.

Lemma fetchUserProfile_success held w profile :
  fetch ProfileEndpoint (requests w) (profileRequest held)
    = Resolved (Success (Parsed profile)) →
  fetchUserProfile held w
  = (Returned tt,
     mk_world
       (mk_state "dashboard" (Some profile) (token (state w)) (products (state w))
          (orders (state w)) (loading (state w)) (error (state w)) (success (state w)))
       (localStorage w) (requests w ++ [profileRequest held]) (console w)).
Proof.
  intros Hfetch. unfold fetchUserProfile, try_catch, mbind, M_bind.
  rewrite apiCall_run. simpl. fold (profileRequest held). by rewrite Hfetch.
Qed.

Lemma fetchUserProfile_failure held w :
  (∀ profile, fetch ProfileEndpoint (requests w) (profileRequest held)
              ≠ Resolved (Success (Parsed profile))) →
  ∃ err,
    fetchUserProfile held w
    = (Returned tt,
       mk_world
         (mk_state (currentView (state w)) (user (state w)) None (products (state w))
            (orders (state w)) (loading (state w)) (error (state w)) (success (state w)))
         (delete "token" (localStorage w)) (requests w ++ [profileRequest held])
         (console w ++ [("Profile fetch error:", err)])).
Proof.
  intros Hfetch. unfold fetchUserProfile, try_catch, mbind, M_bind.
  rewrite apiCall_run. simpl. fold (profileRequest held).
  destruct (fetch ProfileEndpoint (requests w) (profileRequest held))
    as [[[profile|err]|[errorData|err]]|err] eqn:Hanswer; simpl; eauto.
  by destruct (Hfetch profile).
Qed.

Lemma commit_unfold fuel previous w :
  commit (S fuel) previous w
  = if changed token previous (state w)
       || changed (fun s => (currentView s, token s)) previous (state w)
    then match runEffects previous (state w) w with
         | (Returned _, w') => commit fuel (Some (state w)) w'
         | (Thrown e, w') => (Thrown e, w')
         end
    else (Returned true, w).
Proof. cbn [commit]. unfold mbind, M_bind, getState. by destruct (_ || _). Qed.

Lemma runEffects_unfold previous render w :
  runEffects previous render w
  = match (if changed token previous render then profileEffect render w
           else (Returned tt, w)) with
    | (Returned _, w') =>
        if changed (fun s => (currentView s, token s)) previous render
        then viewEffect render w' else (Returned tt, w')
    | (Thrown e, w') => (Thrown e, w')
    end.
Proof.
  unfold runEffects, when, mbind, M_bind.
  destruct (changed token previous render), (changed _ previous render); reflexivity.
Qed.

Lemma profileEffect_held render w :
  Js.truthy (token render) = true →
  profileEffect render w = not_awaited (fetchUserProfile (token render)) w.
Proof. intros Hheld. unfold profileEffect. by rewrite Hheld. Qed.

Lemma profileEffect_idle render w :
  Js.truthy (token render) = false → profileEffect render w = (Returned tt, w).
Proof. intros Hnone. unfold profileEffect. by rewrite Hnone. Qed.

Lemma viewEffect_idle render w :
  currentView render ≠ "products" → currentView render ≠ "orders" →
  viewEffect render w = (Returned tt, w).
Proof.
  intros Hp Ho. unfold viewEffect, mbind, M_bind.
  apply String.eqb_neq in Hp, Ho. by rewrite Hp, Ho.
Qed.

(** C9. Loading the page with a token in the local storage fetches the
    profile with that token. When the fetch succeeds the session is
    authenticated with the fetched profile and shows the dashboard; when it
    fails, in whatever way, the token is removed from the state and from the
    local storage and the session is anonymous again, on the login screen.
    Three renders settle the page. *)
Theorem startup_with_persisted_token (storage : gmap string string) (t : string)
    (fuel : nat) :
  storage !! "token" = Some t →
  t ≠ "" →
  let answer := fetch ProfileEndpoint [] (profileRequest (Some t)) in
  let result := startup (3 + fuel) storage in
  let s := state (snd result) in
  fst result = Returned true
  ∧ requests (snd result) = [profileRequest (Some t)]
  ∧ (∀ profile, answer = Resolved (Success (Parsed profile)) →
       authenticated s ∧ user s = Some profile ∧ token s = Some t
       ∧ currentView s = "dashboard"
       ∧ localStorage (snd result) = storage)
  ∧ ((∀ profile, answer ≠ Resolved (Success (Parsed profile))) →
       anonymous s ∧ token s = None
       ∧ localStorage (snd result) !! "token" = None
       ∧ currentView s = "login"
       ∧ ∃ onAuth, App s = AuthScreenElement onAuth false "").
Proof.
  intros Hstored Ht answer result s.
  pose proof (truthy_string_true _ Ht) as Htruthy.
  set (first := firstRender (Some t)).
  assert (Hmount : mount storage = mk_world first storage [] [])
    by (unfold mount, initialState, localStorage_getItem; by rewrite Hstored).
  assert (Hfirst : ∀ w1,
    fetchUserProfile (Some t) (mount storage) = (Returned tt, w1) →
    result = match runEffects (Some first) (state w1) w1 with
             | (Returned _, w2) => commit (1 + fuel) (Some (state w1)) w2
             | (Thrown e, w2) => (Thrown e, w2)
             end
    ∨ (token (state w1) = Some t ∧ currentView (state w1) = "login"
       ∧ result = (Returned true, w1))).
  { intros w1 Hrun. subst result. unfold startup.
    change (3 + fuel)%nat with (S (S (1 + fuel))). rewrite commit_unfold.
    cbn [changed orb]. rewrite runEffects_unfold. cbn [changed].
    rewrite Hmount in *. cbn [state].
    rewrite profileEffect_held by done. subst first. cbn [token firstRender].
    unfold not_awaited, try_catch. rewrite Hrun.
    rewrite viewEffect_idle by done. rewrite commit_unfold.
    destruct (_ || _) eqn:Hchanged; [by left | right].
    apply orb_false_elim in Hchanged as [_ Hdeps].
    unfold changed in Hdeps. apply bool_decide_eq_false_1 in Hdeps.
    apply dec_stable in Hdeps. simpl in Hdeps. by injection Hdeps as <- <-. }
  destruct (fetch ProfileEndpoint [] (profileRequest (Some t)))
    as [[[profile|err]|[errorData|err]]|err] eqn:Hanswer.
  1: { (* the fetch succeeds *)
    pose proof (fetchUserProfile_success (Some t) (mount storage) profile Hanswer) as Hrun.
    rewrite Hmount in Hrun at 2. cbn [state localStorage requests console] in Hrun.
    subst first; cbn [token products orders loading error success firstRender app] in Hrun.
    destruct (Hfirst _ Hrun) as [Hres | (_ & Hview & _)]; [| done].
    cbn [state] in Hres. rewrite runEffects_unfold in Hres.
    rewrite changed_same, changed_other in Hres by done.
    rewrite viewEffect_idle in Hres by done.
    rewrite commit_settled in Hres by done.
    subst s answer. rewrite Hres, Hmount. cbn [fst snd state requests localStorage].
    split; [done |]. split; [done |]. split.
    - intros profile' [= <-]. unfold authenticated. simpl. rewrite Htruthy. eauto 10.
    - intros Hno. by destruct (Hno profile). }
  all: (* the fetch fails *)
    assert (Hfails : ∀ profile,
      fetch ProfileEndpoint (requests (mount storage)) (profileRequest (Some t))
      ≠ Resolved (Success (Parsed profile)))
      by (intros profile; simpl; rewrite Hanswer; discriminate);
    destruct (fetchUserProfile_failure (Some t) (mount storage) Hfails) as [thrown Hrun];
    rewrite Hmount in Hrun at 2; cbn [state localStorage requests console] in Hrun;
    subst first; cbn [currentView user products orders loading error success firstRender app] in Hrun;
    (destruct (Hfirst _ Hrun) as [Hres | (Htoken & _)]; [| done]);
    cbn [state] in Hres; rewrite runEffects_unfold in Hres;
    rewrite !changed_other in Hres by done;
    rewrite profileEffect_idle in Hres by done;
    rewrite viewEffect_idle in Hres by done;
    rewrite commit_settled in Hres by done;
    subst s answer; rewrite Hres, Hmount; cbn [fst snd state requests localStorage];
    (split; [done |]); (split; [done |]); (split; [by intros profile' [=] |]);
    intros _; unfold anonymous; simpl;
    repeat split; [ by rewrite lookup_delete_eq | unfold App; simpl; eauto ].
Qed.

(** After a logout the renders that follow run no request: the profile
    effect sees no token and the view effect sees the login view. *)
Lemma logout_settles fuel (w : World) :
  commit (2 + fuel) (Some (state w)) (snd (handleLogout w))
  = (Returned true, snd (handleLogout w)).
Proof.
  set (w' := snd (handleLogout w)).
  assert (Htoken : token (state w') = None) by reflexivity.
  assert (Hview : currentView (state w') = "login") by reflexivity.
  change (2 + fuel)%nat with (S (S fuel)). rewrite commit_unfold.
  destruct (_ || _); [| done]. rewrite runEffects_unfold.
  destruct (changed token _ _); [rewrite profileEffect_idle by by rewrite Htoken |];
    (destruct (changed _ _ _); [rewrite viewEffect_idle by by rewrite Hview |]);
    by apply commit_settled.
Qed.

(** C8. Logout removes the token from the state and from the local
    storage, clears the profile, empties the product and order lists and
    shows the login view: the session is anonymous and the login screen is
    rendered. It issues no request, and neither do the renders that
    follow. *)
Theorem logout_clears_session (w : World) (fuel : nat) :
  let result := handleLogout w in
  let s := state (snd result) in
  fst result = Returned tt
  ∧ token s = None
  ∧ localStorage (snd result) !! "token" = None
  ∧ user s = None
  ∧ products s = []
  ∧ orders s = []
  ∧ currentView s = "login"
  ∧ anonymous s
  ∧ requests (snd result) = requests w
  ∧ (∃ onAuth, App s = AuthScreenElement onAuth (loading (state w)) (error (state w)))
  ∧ commit (2 + fuel) (Some (state w)) (snd result) = (Returned true, snd result).
Proof.
  intros result s. subst s result.
  split; [done |]. split; [done |]. split; [by apply lookup_delete_eq |].
  do 6 (split; [done |]). split; [| apply logout_settles].
  unfold App. simpl. eauto.
Qed.

End Startup.

(** ** Lists: filter and reduce *)

Lemma Js_filter_spec {A} (pred : A -> bool) (P : A -> Prop) `{∀ x, Decision (P x)} :
  (∀ x, pred x = true ↔ P x) → ∀ arr, Js.filter pred arr = filter P arr.
Proof.
  intros Hpred. induction arr as [|x rest IH]; [done |].
  simpl. rewrite filter_cons, IH. destruct (pred x) eqn:Hx.
  - rewrite decide_True; [done | by apply Hpred].
  - rewrite decide_False; [done |]. intros HP. apply Hpred in HP. congruence.
Qed.

Lemma Js_reduce_fold_left {A B} (callback : B -> A -> B) arr initial :
  Js.reduce callback initial arr = fold_left callback arr initial.
Proof. revert initial. induction arr as [|x rest IH]; intros; simpl; [done | apply IH]. Qed.

Lemma Js_reduce_snoc {A B} (callback : B -> A -> B) arr x initial :
  Js.reduce callback initial (arr ++ [x]) = callback (Js.reduce callback initial arr) x.
Proof. revert initial. induction arr as [|y rest IH]; intros; simpl; [done | apply IH]. Qed.

Lemma fold_left_total_price (orders : list Order.t) (sum : float) :
  fold_left (fun sum order => PrimFloat.add sum (Order.total_price order)) orders sum
  = fold_left PrimFloat.add (Order.total_price <$> orders) sum.
Proof. revert sum. induction orders as [|o rest IH]; intros; simpl; [done | apply IH]. Qed.

(** The revenue of a list with one more order at its end. *)
Lemma totalRevenue_snoc (orders : list Order.t) (o : Order.t) :
  Dashboard.totalRevenue (orders ++ [o])
  = PrimFloat.add (Dashboard.totalRevenue orders) (Order.total_price o).
Proof. unfold Dashboard.totalRevenue. by rewrite Js_reduce_snoc. Qed.

(** C6. The dashboard shows the length of the product list, the length of
    the order list, and as revenue the sum of the total_price of the
    loaded orders, added from zero in the order of the list. *)
Theorem dashboard_totals (products : list Product.t) (orders : list Order.t) :
  Dashboard.totalProducts products = length products
  ∧ Dashboard.totalOrders orders = length orders
  ∧ Dashboard.totalRevenue orders
    = fold_left PrimFloat.add (Order.total_price <$> orders) 0%float.
Proof.
  repeat split. unfold Dashboard.totalRevenue.
  by rewrite Js_reduce_fold_left, fold_left_total_price.
Qed.

Section Orders.
Context `{Host}.

Lemma filteredOrders_all (orders : list Order.t) :
  OrdersView.filteredOrders orders "all" = orders.
Proof. reflexivity. Qed.

Lemma filteredOrders_status (orders : list Order.t) (status : string) :
  status ≠ "all" →
  OrdersView.filteredOrders orders status
  = filter (fun order => Order.status order = status) orders.
Proof.
  intros Hstatus. unfold OrdersView.filteredOrders.
  apply String.eqb_neq in Hstatus. rewrite Hstatus.
  apply Js_filter_spec. intros order. apply String.eqb_eq.
Qed.

(** C5. With the filter on a status, the Orders view lists exactly the
    loaded orders whose status is that one, in the order of the loaded
    list; with the filter on all it lists the loaded list itself. Changing
    the filter changes the local state of the view only: the world of the
    application is untouched, and the render that follows runs no effect,
    so no request is made. *)
Theorem orders_filter_is_client_side (ui : OrdersView.Ui) (status : string) (fuel : nat) :
  status ≠ "all" →
  let loaded := orders (state (OrdersView.world ui)) in
  let ui' := OrdersView.onFilterChange status ui in
  OrdersView.filteredOrders loaded status
    = filter (fun order => Order.status order = status) loaded
  ∧ OrdersView.filteredOrders loaded "all" = loaded
  ∧ OrdersView.filter ui' = status
  ∧ OrdersView.world ui' = OrdersView.world ui
  ∧ commit (S fuel) (Some (state (OrdersView.world ui))) (OrdersView.world ui')
    = (Returned true, OrdersView.world ui).
Proof.
  intros Hstatus loaded ui'. split; [by apply filteredOrders_status |].
  repeat split. by apply commit_settled.
Qed.

End Orders.

Section Products.
Context `{Host}.

Lemma not_bound_in_module :
  ("setCurrentView" ∉ ProductsView.params)
  ∧ ("setCurrentView" ∉ ProductsView.module_scope).
Proof.
  split; intros Hin;
    repeat (apply elem_of_cons in Hin as [Heq | Hin]; [discriminate Heq |]);
    by apply elem_of_nil in Hin.
Qed.

(** C10. The click handler of the Add Product button calls
    [setCurrentView], which neither the props of [ProductsView] nor the
    top level of the module bind; unless the global object binds that name,
    every click throws a reference error and leaves the state, and so the
    current view, as it was. *)
Theorem add_product_click_throws (w : World) :
  ("setCurrentView" ∉ global_names) →
  ("setCurrentView" ∉ ProductsView.params)
  ∧ ("setCurrentView" ∉ ProductsView.module_scope)
  ∧ ProductsView.onAddProductClick w
    = (Thrown (ReferenceError "setCurrentView is not defined"), w)
  ∧ (currentView (state w) = "products" →
     currentView (state (snd (ProductsView.onAddProductClick w))) ≠ "add-product").
Proof.
  intros Hglobal. destruct not_bound_in_module as [Hparams Hmodule].
  assert (Hthrows : ProductsView.onAddProductClick w
                    = (Thrown (ReferenceError "setCurrentView is not defined"), w)).
  { unfold ProductsView.onAddProductClick, ProductsView.call_identifier.
    rewrite bool_decide_eq_false_2; [done |].
    unfold ProductsView.scope_chain. simpl. rewrite app_nil_r. intros Hin.
    repeat (apply elem_of_cons in Hin as [Heq | Hin]; [discriminate Heq |]).
    by apply Hglobal. }
  repeat split; try done. rewrite Hthrows. simpl. by intros ->.
Qed.

End Products.

Section EditView.
Context `{Host}.

Lemma split_editView (id : string) :
  Js.split "-" ("edit-product-" +:+ id) = "edit" :: "product" :: Js.split "-" id.
Proof. reflexivity. Qed.

Lemma split_cons (sep : ascii) (s : string) :
  ∃ piece pieces, Js.split sep s = piece :: pieces.
Proof.
  induction s as [|c rest (piece & pieces & IH)]; simpl; [by eauto |].
  destruct (Ascii.eqb c sep); [by eauto |]. rewrite IH. eauto.
Qed.

Lemma split_without_separator (sep : ascii) (s : string) :
  Js.includes s sep = false → Js.split sep s = [s].
Proof.
  induction s as [|c rest IH]; simpl; [done |].
  intros [Hc Hrest]%orb_false_elim. by rewrite Hc, IH.
Qed.

(** The id the edit view reads back is the piece of the product id before
    its first hyphen. *)
Lemma viewProductId_editView (product : Product.t) :
  viewProductId (editView product) = head (Js.split "-" (Product.id product)).
Proof.
  unfold viewProductId, editView. rewrite split_editView.
  by destruct (split_cons "-" (Product.id product)) as (piece & pieces & ->).
Qed.

Lemma viewProductId_hyphen_free (product : Product.t) :
  Js.includes (Product.id product) "-" = false →
  viewProductId (editView product) = Some (Product.id product).
Proof.
  intros Hfree. by rewrite viewProductId_editView, split_without_separator.
Qed.

(** [find] returns the first product with the id: no product listed before
    it has that id. *)
Lemma find_first_by_id (products : list Product.t) (product : Product.t) :
  product ∈ products →
  ∃ found before after,
    Js.find (fun p => Js.strict_eq (Product.id p) (Some (Product.id product))) products
    = Some found
    ∧ Product.id found = Product.id product
    ∧ products = before ++ found :: after
    ∧ Forall (fun p => Product.id p ≠ Product.id product) before.
Proof.
  induction products as [|p rest IH]; [by intros ?%elem_of_nil |].
  intros Hin. simpl. destruct (String.eqb (Product.id p) (Product.id product)) eqn:Hid.
  - exists p, [], rest. apply String.eqb_eq in Hid. by repeat split.
  - apply elem_of_cons in Hin as [-> | Hin]; [by rewrite String.eqb_refl in Hid |].
    destruct (IH Hin) as (found & before & after & Hfind & Hfound & -> & Hbefore).
    exists found, (p :: before), after. repeat split; [done | done |].
    constructor; [by apply String.eqb_neq | done].
Qed.

(** X2. For a product whose id has no hyphen, the edit view shows the form
    of the first loaded product with that id: no product loaded before it
    has that id; and its submission is a PUT to the path of that id. *)
Lemma edit_form_targets_hyphen_free_id (render : AppState) (product : Product.t) :
  Js.truthy (token render) = true →
  currentView render = editView product →
  product ∈ products render →
  Js.includes (Product.id product) "-" = false →
  ∃ navigation errorBanner successBanner found onSubmit onCancel,
    App render
    = Page navigation errorBanner successBanner
        [ProductFormElement (Some found) onSubmit onCancel (loading render) true]
    ∧ Product.id found = Product.id product
    ∧ found ∈ products render
    ∧ (∃ before after,
         products render = before ++ found :: after
         ∧ Forall (fun p => Product.id p ≠ Product.id product) before)
    ∧ ∀ formData w, ∃ later,
        requests (snd (ProductForm.handleSubmit onSubmit formData w))
        = requests w
          ++ mk_request (API_BASE_URL +:+ "/api/products/" +:+ Product.id product)
               (Some "PUT") (Some (BodyFormData (productFormData formData)))
               (apiCall_headers (token render)
                  (productSubmit_options (token render) formData true))
          :: later.
Proof.
  intros Hheld Hview Hin Hfree.
  destruct (find_first_by_id _ _ Hin)
    as (found & before & after & Hfind & Hid & Hsplit & Hbefore).
  assert (Hfound : found ∈ products render)
    by (rewrite Hsplit; apply elem_of_app; right; apply list_elem_of_here).
  unfold App. rewrite Hheld, Hview. cbn [negb].
  rewrite (viewProductId_hyphen_free _ Hfree), Hfind.
  assert (Hshown : ∀ id,
    Js.startsWith ("edit-product-" +:+ id) "edit-product-" = true
    ∧ String.eqb ("edit-product-" +:+ id) "dashboard" = false
    ∧ String.eqb ("edit-product-" +:+ id) "products" = false
    ∧ String.eqb ("edit-product-" +:+ id) "add-product" = false
    ∧ String.eqb ("edit-product-" +:+ id) "orders" = false)
    by (intros id; repeat split; destruct id; reflexivity).
  unfold editView. destruct (Hshown (Product.id product)) as (-> & -> & -> & -> & ->).
  cbn [shown app].
  do 6 eexists. split; [reflexivity |]. split; [done |]. split; [done |].
  split; [by exists before, after |].
  intros formData w. unfold ProductForm.handleSubmit.
  destruct (handleProductSubmit_request (token render) formData true
              (Some (Product.id product)) w) as (later & Hlater).
  exists later. by rewrite Hlater.
Qed.

(** X3. The add view shows an empty form, and its submission is a POST
    to the collection path. *)
Lemma add_form_posts (render : AppState) :
  Js.truthy (token render) = true →
  currentView render = "add-product" →
  ∃ navigation errorBanner successBanner onSubmit onCancel,
    App render
    = Page navigation errorBanner successBanner
        [ProductFormElement None onSubmit onCancel (loading render) false]
    ∧ ∀ formData w, ∃ later,
        requests (snd (ProductForm.handleSubmit onSubmit formData w))
        = requests w
          ++ mk_request (API_BASE_URL +:+ "/api/products") (Some "POST")
               (Some (BodyFormData (productFormData formData)))
               (apiCall_headers (token render)
                  (productSubmit_options (token render) formData false))
          :: later.
Proof.
  intros Hheld Hview. unfold App. rewrite Hheld, Hview. cbn [negb].
  do 5 eexists. split; [reflexivity |].
  intros formData w. unfold ProductForm.handleSubmit.
  destruct (handleProductSubmit_request (token render) formData false None w)
    as (later & Hlater).
  exists later. by rewrite Hlater.
Qed.

(** C1, at a product whose id contains hyphens. After Edit is clicked on
    the product with id 3f2b8c1e-77aa-4d10-9c55-0a1b2c3d4e5f, the edit view
    reads back the id 3f2b8c1e: the form is rendered without a product (it
    is not pre-filled), and submitting it sends the PUT to
    /api/products/3f2b8c1e, not to the path of the product id. *)
Theorem edit_form_of_hyphenated_id (formData : ProductFormData.t) (w : World) :
  let render :=
    mk_state (editView Sample.shoe) (Some Sample.vendorA) (Some "t1")
             [Sample.shoe] [] false "" "" in
  viewProductId (currentView render) = Some "3f2b8c1e"
  ∧ productSubmit_url true (viewProductId (currentView render))
    ≠ "/api/products/" +:+ Product.id Sample.shoe
  ∧ ProductForm.initialFormData None
    = ProductFormData.mk "" (Text "") "" (Text "") "" []
  ∧ ∃ navigation onSubmit onCancel,
      App render
      = Page navigation None None [ProductFormElement None onSubmit onCancel false true]
      ∧ ∃ later,
          requests (snd (ProductForm.handleSubmit onSubmit formData w))
          = requests w
            ++ mk_request (API_BASE_URL +:+ "/api/products/3f2b8c1e")
                 (Some "PUT") (Some (BodyFormData (productFormData formData)))
                 (apiCall_headers (Some "t1")
                    (productSubmit_options (Some "t1") formData true))
            :: later.
Proof.
  intros render. split; [reflexivity |]. split; [discriminate |]. split; [reflexivity |].
  do 3 eexists. split; [reflexivity |].
  unfold ProductForm.handleSubmit.
  destruct (handleProductSubmit_request (Some "t1") formData true (Some "3f2b8c1e") w)
    as (later & Hlater).
  exists later. exact Hlater.
Qed.

End EditView.

(** * Concrete runs *)

Example split_plain : Js.split "-" "edit-product-42" = ["edit"; "product"; "42"].
Proof. reflexivity. Qed.

Example split_nothing : Js.split "-" "" = [""].
Proof. reflexivity. Qed.

Example split_uuid :
  Js.split "-" (editView Sample.shoe)
  = ["edit"; "product"; "3f2b8c1e"; "77aa"; "4d10"; "9c55"; "0a1b2c3d4e5f"].
Proof. reflexivity. Qed.

Example stringify_escapes :
  Js.JSON_stringify [("a", String (ascii_of_N 34) (String (ascii_of_N 10) "b"))]
  = "{" +:+ Js.dquote +:+ "a" +:+ Js.dquote +:+ ":" +:+ Js.dquote
    +:+ String (ascii_of_N 92) Js.dquote +:+ String (ascii_of_N 92) "nb"
    +:+ Js.dquote +:+ "}".
Proof. reflexivity. Qed.

Example split_adjacent : Js.split "-" "a--b-" = ["a"; ""; "b"; ""].
Proof. reflexivity. Qed.

Example revenue_of_sample : Dashboard.totalRevenue Sample.someOrders = 2.75%float.
Proof. reflexivity. Qed.

(** Float addition rounds, so the order of the list matters: 2^53 + 1 + 1
    is 2^53, while 1 + 1 + 2^53 is 2^53 + 2. *)
Example revenue_depends_on_order :
  Dashboard.totalRevenue
    [Sample.order "o1" 9007199254740992%float "delivered";
     Sample.order "o2" 1%float "delivered"; Sample.order "o3" 1%float "delivered"]
  = 9007199254740992%float
  ∧ Dashboard.totalRevenue
      [Sample.order "o2" 1%float "delivered"; Sample.order "o3" 1%float "delivered";
       Sample.order "o1" 9007199254740992%float "delivered"]
    = 9007199254740994%float.
Proof. split; reflexivity. Qed.

Example pending_of_sample :
  OrdersView.filteredOrders Sample.someOrders "pending"
  = [Sample.order "o1" 0.5%float "pending"; Sample.order "o3" 2%float "pending"].
Proof. reflexivity. Qed.

(** The edit view of a product whose id has no hyphen finds it. *)
Example lamp_is_found :
  Js.find (fun p => Js.strict_eq (Product.id p) (viewProductId (editView Sample.lamp)))
          [Sample.shoe; Sample.lamp]
  = Some Sample.lamp.
Proof. reflexivity. Qed.

(** The form of an edited product starts from its fields. *)
Example lamp_form :
  ProductForm.initialFormData (Some Sample.lamp)
  = ProductFormData.mk "Lamp" (Number 20%float) "Desk lamp" (Number 7%float)
      "Home & Garden" [].
Proof. reflexivity. Qed.

(** ** Counterexamples *)

(** C2 as stated fails: a plain object given as body reaches [fetch] as
    the object it is, not as its JSON text; and the multipart body of a
    product goes out under the JSON content type. *)
Lemma plain_object_body_is_not_serialized :
  (init_body
     (apiCall_request (H := Sample.loginHost) None "/api/auth/login"
        (mk_options (Some "POST")
           (Some (BodyObject (AuthForm.fields Sample.loginForm))) None))
   = Some (BodyObject (AuthForm.fields Sample.loginForm))
   ∧ Some (BodyObject (AuthForm.fields Sample.loginForm))
     ≠ Some (BodyText (Js.JSON_stringify (AuthForm.fields Sample.loginForm))))
  ∧ (init_body
       (apiCall_request (H := Sample.loginHost) (Some "t1") "/api/products"
          (productSubmit_options (H := Sample.loginHost) (Some "t1")
             Sample.lampForm false))
     = Some (BodyFormData
               [("name", FormText "Lamp"); ("price", FormText "20");
                ("description", FormText "Desk lamp"); ("quantity", FormText "7");
                ("category", FormText "Home & Garden")])
     ∧ init_headers
         (apiCall_request (H := Sample.loginHost) (Some "t1") "/api/products"
            (productSubmit_options (H := Sample.loginHost) (Some "t1")
               Sample.lampForm false))
       !! "Content-Type" = Some "application/json").
Proof. repeat split. discriminate. Qed.

(** C4 as stated fails: when the body of a failed response is not JSON,
    the error is the rejection of the parser, whose message is neither a
    field of the body nor the generic message; a success status does not
    exclude an error, since the body of a successful response may fail to
    parse as well; a detail field that is present but empty is replaced by
    the generic message; a body that is null fails with a TypeError; a
    detail that is a list of records gives the message [object Object],
    which is no field of the body; and a detail that cannot be converted to
    a string fails with a TypeError. *)
Lemma unparsable_body_is_another_error :
  fst (apiCall (H := Sample.proxyHost) None ProfileEndpoint "/api/vendor/profile"
         no_options (mount ∅))
  = Thrown Sample.notJson
  ∧ message Sample.notJson ≠ "An error occurred"
  ∧ fst (apiCall (H := Sample.proxyHost) None AckEndpoint "/api/generate-sample-orders"
           (mk_options (Some "POST") None None) (mount ∅))
    = Thrown Sample.notJson
  ∧ fst (apiCall (H := Sample.failingHost (Sample.refusal ""))
           None AuthEndpoint "/api/auth/login" (authOptions Sample.loginForm) (mount ∅))
    = Thrown (Error "An error occurred")
  ∧ fst (apiCall (H := Sample.failingHost VNull)
           None AuthEndpoint "/api/auth/login" (authOptions Sample.loginForm) (mount ∅))
    = Thrown (TypeError "Cannot read properties of null (reading 'detail')")
  ∧ fst (apiCall (H := Sample.failingHost Sample.invalid)
           None AuthEndpoint "/api/auth/login" (authOptions Sample.loginForm) (mount ∅))
    = Thrown (Error "[object Object]")
  ∧ fst (apiCall (H := Sample.failingHost Sample.unprintable)
           None AuthEndpoint "/api/auth/login" (authOptions Sample.loginForm) (mount ∅))
    = Thrown (TypeError "Cannot convert object to primitive value").
Proof. repeat split. discriminate. Qed.

(** ** Witnesses *)

Lemma apiCall_passes_body_through_witness :
  fetch (Host := Sample.loginHost) ProfileEndpoint []
        (apiCall_request (H := Sample.loginHost) (Some "t1") "/api/vendor/profile" no_options)
  = Resolved (Success (Parsed Sample.vendorA))
  ∧ apiCall (H := Sample.loginHost) (Some "t1") ProfileEndpoint "/api/vendor/profile"
      no_options (mount ∅)
    = (Returned Sample.vendorA,
       sent (apiCall_request (H := Sample.loginHost) (Some "t1") "/api/vendor/profile"
               no_options) (mount ∅)).
Proof.
  split; [reflexivity |].
  pose proof (apiCall_passes_body_through (H := Sample.loginHost) (Some "t1")
    ProfileEndpoint "/api/vendor/profile" no_options (mount ∅)) as (_ & _ & _ & Hok).
  apply Hok. reflexivity.
Defined.

Lemma apiCall_failure_message_witness :
  fst (apiCall (H := Sample.refusingHost) None AuthEndpoint "/api/auth/login"
         (authOptions Sample.loginForm) (mount ∅))
  = Thrown (Error "Invalid credentials")
  ∧ fst (apiCall (H := Sample.refusingHost) None AckEndpoint "/api/generate-sample-orders"
           (mk_options (Some "POST") None None) (mount ∅))
    = Thrown (Error "An error occurred")
  ∧ fst (apiCall (H := Sample.loginHost) None AuthEndpoint "/api/auth/login"
           (authOptions Sample.loginForm) (mount ∅))
    = Returned (Build_AuthResponse "t1" Sample.vendorA)
  ∧ fst (apiCall (H := Sample.failingHost VNull) None AuthEndpoint "/api/auth/login"
           (authOptions Sample.loginForm) (mount ∅))
    = Thrown (TypeError "Cannot read properties of null (reading 'detail')")
  ∧ fst (apiCall (H := Sample.failingHost Sample.invalid) None AuthEndpoint
           "/api/auth/login" (authOptions Sample.loginForm) (mount ∅))
    = Thrown (Error "[object Object]")
  ∧ fst (apiCall (H := Sample.failingHost Sample.unprintable) None AuthEndpoint
           "/api/auth/login" (authOptions Sample.loginForm) (mount ∅))
    = Thrown (TypeError "Cannot convert object to primitive value")
  ∧ fst (apiCall (H := Sample.failingHost (VString "Service Unavailable")) None AuthEndpoint
           "/api/auth/login" (authOptions Sample.loginForm) (mount ∅))
    = Thrown (Error "An error occurred").
Proof.
  split; [| split; [| split; [| split; [| split; [| split]]]]].
  - pose proof (apiCall_failure_message (H := Sample.refusingHost) None AuthEndpoint
      "/api/auth/login" (authOptions Sample.loginForm) (mount ∅))
      as (_ & Hdetail & _).
    apply (Hdetail [("detail", VString "Invalid credentials")]);
      [discriminate | reflexivity | reflexivity].
  - pose proof (apiCall_failure_message (H := Sample.refusingHost) None AckEndpoint
      "/api/generate-sample-orders" (mk_options (Some "POST") None None) (mount ∅))
      as (_ & _ & _ & _ & Hgeneric & _).
    apply (Hgeneric (VObject [])); [reflexivity | discriminate | discriminate].
  - pose proof (apiCall_failure_message (H := Sample.loginHost) None AuthEndpoint
      "/api/auth/login" (authOptions Sample.loginForm) (mount ∅))
      as (_ & _ & _ & _ & _ & Hok & _).
    apply Hok. reflexivity.
  - pose proof (apiCall_failure_message (H := Sample.failingHost VNull) None AuthEndpoint
      "/api/auth/login" (authOptions Sample.loginForm) (mount ∅)) as (Hnull & _).
    apply Hnull. reflexivity.
  - pose proof (apiCall_failure_message (H := Sample.failingHost Sample.invalid) None
      AuthEndpoint "/api/auth/login" (authOptions Sample.loginForm) (mount ∅))
      as (_ & _ & Htext & _).
    apply (Htext Sample.invalid
             (VArray [VObject [("loc", VArray [VString "body"; VString "email"]);
                               ("msg", VString "field required")]]));
      reflexivity.
  - pose proof (apiCall_failure_message (H := Sample.failingHost Sample.unprintable) None
      AuthEndpoint "/api/auth/login" (authOptions Sample.loginForm) (mount ∅))
      as (_ & _ & _ & Hthrows & _).
    apply (Hthrows Sample.unprintable (VObject [("toString", VNumber 1)])); reflexivity.
  - pose proof (apiCall_failure_message (H := Sample.failingHost (VString "Service Unavailable"))
      None AuthEndpoint "/api/auth/login" (authOptions Sample.loginForm) (mount ∅))
      as (_ & _ & _ & _ & Hgeneric & _).
    apply (Hgeneric (VString "Service Unavailable")); [reflexivity | discriminate | discriminate].
Defined.

Lemma orders_filter_is_client_side_witness :
  "pending" ≠ "all"
  ∧ OrdersView.filteredOrders Sample.someOrders "pending"
    = filter (fun order => Order.status order = "pending") Sample.someOrders
  ∧ commit (H := Sample.loginHost) 1
      (Some (mk_state "orders" (Some Sample.vendorA) (Some "t1") [] Sample.someOrders
               false "" ""))
      (mk_world (mk_state "orders" (Some Sample.vendorA) (Some "t1") [] Sample.someOrders
                   false "" "") {[ "token" := "t1" ]} [] [])
    = (Returned true,
       mk_world (mk_state "orders" (Some Sample.vendorA) (Some "t1") [] Sample.someOrders
                   false "" "") {[ "token" := "t1" ]} [] []).
Proof.
  split; [discriminate |].
  pose proof (orders_filter_is_client_side (H := Sample.loginHost)
    (OrdersView.mk_ui
       (mk_world (mk_state "orders" (Some Sample.vendorA) (Some "t1") [] Sample.someOrders
                    false "" "") {[ "token" := "t1" ]} [] [])
       OrdersView.initialFilter)
    "pending" 0 ltac:(discriminate)) as (Hfiltered & _ & _ & _ & Hquiet).
  split; [exact Hfiltered | exact Hquiet].
Defined.

(** The scenario of the specification: a login with a@b.com and x,
    answered with the token t1 and the vendor A. *)
Lemma successful_auth_opens_session_witness :
  authenticated
    (state (snd (handleAuth (H := Sample.loginHost) None Sample.loginForm true (mount ∅))))
  ∧ currentView
      (state (snd (handleAuth (H := Sample.loginHost) None Sample.loginForm true (mount ∅))))
    = "dashboard"
  ∧ localStorage (snd (handleAuth (H := Sample.loginHost) None Sample.loginForm true (mount ∅)))
      !! "token" = Some "t1"
  ∧ ∃ navigation errorBanner successBanner dashboard,
      App (H := Sample.loginHost)
        (state (snd (handleAuth (H := Sample.loginHost) None Sample.loginForm true (mount ∅))))
      = Page navigation errorBanner successBanner [dashboard]
      ∧ Navigation.welcome (nav_user navigation) = "Welcome, A".
Proof.
  pose proof (successful_auth_opens_session (H := Sample.loginHost) None Sample.loginForm
    true (mount ∅) (Build_AuthResponse "t1" Sample.vendorA) eq_refl ltac:(discriminate))
    as (_ & Hauth & _ & _ & Hstored & Hview & _ & navigation & eb & sb & d & Happ & _ & Hwelcome).
  split; [exact Hauth |]. split; [exact Hview |]. split; [exact Hstored |].
  exists navigation, eb, sb, d. split; [exact Happ | exact Hwelcome].
Defined.

(** A stored token the backend refuses, and one it accepts. *)
Lemma startup_with_persisted_token_witness :
  (anonymous (state (snd (startup (H := Sample.refusingHost) 3 {[ "token" := "expired" ]})))
   ∧ localStorage (snd (startup (H := Sample.refusingHost) 3 {[ "token" := "expired" ]}))
       !! "token" = None)
  ∧ (authenticated (state (snd (startup (H := Sample.loginHost) 3 {[ "token" := "t1" ]})))
     ∧ currentView (state (snd (startup (H := Sample.loginHost) 3 {[ "token" := "t1" ]})))
       = "dashboard").
Proof.
  split.
  - pose proof (startup_with_persisted_token (H := Sample.refusingHost)
      {[ "token" := "expired" ]} "expired" 0 eq_refl ltac:(discriminate))
      as (_ & _ & _ & Hfails).
    destruct Hfails as (Hanon & _ & Hstored & _); [intros profile; discriminate |].
    split; assumption.
  - pose proof (startup_with_persisted_token (H := Sample.loginHost)
      {[ "token" := "t1" ]} "t1" 0 eq_refl ltac:(discriminate))
      as (_ & _ & Hsucceeds & _).
    destruct (Hsucceeds Sample.vendorA eq_refl) as (Hauth & _ & _ & Hview & _).
    split; assumption.
Defined.

Lemma add_product_click_throws_witness :
  ("setCurrentView" ∉ global_names (Host := Sample.loginHost))
  ∧ ProductsView.onAddProductClick (H := Sample.loginHost)
      (mk_world (mk_state "products" (Some Sample.vendorA) (Some "t1") [Sample.lamp] []
                   false "" "") {[ "token" := "t1" ]} [] [])
    = (Thrown (ReferenceError "setCurrentView is not defined"),
       mk_world (mk_state "products" (Some Sample.vendorA) (Some "t1") [Sample.lamp] []
                   false "" "") {[ "token" := "t1" ]} [] []).
Proof.
  assert (Hglobal : "setCurrentView" ∉ global_names (Host := Sample.loginHost)).
  { intros Hin.
    repeat (apply elem_of_cons in Hin as [Heq | Hin]; [discriminate Heq |]).
    by apply elem_of_nil in Hin. }
  split; [exact Hglobal |].
  apply (add_product_click_throws (H := Sample.loginHost) _ Hglobal).
Defined.

(** * Further properties of the code *)

(** ** The view string of the edit form *)

Lemma split_first_piece (sep : ascii) (s piece : string) (pieces : list string) :
  Js.split sep s = piece :: pieces →
  String.prefix piece s = true ∧ Js.includes piece sep = false.
Proof.
  revert piece pieces. induction s as [|c rest IH]; intros piece pieces; simpl.
  - by intros [= <- <-].
  - destruct (Ascii.eqb c sep) eqn:Hc; [by intros [= <- <-] |].
    destruct (split_cons sep rest) as (piece' & pieces' & Hrest). rewrite Hrest.
    intros [= <- <-]. destruct (IH _ _ Hrest) as [Hprefix Hfree]. simpl.
    rewrite Hc, Hfree. split; [| done].
    destruct (ascii_dec c c); [done | congruence].
Qed.

Lemma split_whole (sep : ascii) (s : string) :
  head (Js.split sep s) = Some s → Js.includes s sep = false.
Proof.
  destruct (split_cons sep s) as (piece & pieces & Hsplit). rewrite Hsplit. simpl.
  intros [= ->]. by destruct (split_first_piece _ _ _ _ Hsplit).
Qed.

(** X1. The id read back from the view string that Edit writes is always
    a hyphen-free prefix of the product id, and it is the product id itself
    exactly when the id contains no hyphen. *)
Theorem edit_view_round_trip (product : Product.t) :
  (∃ piece, viewProductId (editView product) = Some piece
            ∧ String.prefix piece (Product.id product) = true
            ∧ Js.includes piece "-" = false)
  ∧ (viewProductId (editView product) = Some (Product.id product)
     ↔ Js.includes (Product.id product) "-" = false).
Proof.
  rewrite viewProductId_editView. split.
  - destruct (split_cons "-" (Product.id product)) as (piece & pieces & Hsplit).
    exists piece. rewrite Hsplit. split; [done |]. by apply split_first_piece in Hsplit.
  - split; [apply split_whole |]. intros Hfree. by rewrite split_without_separator.
Qed.

(** ** What the page shows *)

(** X4. Without a truthy token [App] renders the login screen, whatever
    the view string. With one it renders the navigation bar and at most one
    view, the one the view string names; for a view string it does not know
    (the initial login, for instance) the page below the bar is empty. *)
Theorem app_shows_at_most_one_view `{Host} (render : AppState) :
  match App render with
  | AuthScreenElement _ _ _ => Js.truthy (token render) = false
  | Page navigation _ _ content =>
      Js.truthy (token render) = true
      ∧ nav_currentView navigation = currentView render
      ∧ length content = (if known_view (currentView render) then 1 else 0)%nat
      ∧ Forall (element_of_view (currentView render)) content
  end.
Proof.
  unfold App, known_view. destruct (Js.truthy (token render)); [| done]. cbn [negb].
  split; [done |]. split; [done |].
  destruct (String.eqb_spec (currentView render) "dashboard") as [-> | _];
    [split; [done | by repeat constructor] |].
  destruct (String.eqb_spec (currentView render) "products") as [-> | _];
    [split; [done | by repeat constructor] |].
  destruct (String.eqb_spec (currentView render) "add-product") as [-> | _];
    [split; [done | by repeat constructor] |].
  destruct (String.eqb_spec (currentView render) "orders") as [-> | _];
    [split; [done | by repeat constructor] |].
  destruct (Js.startsWith (currentView render) "edit-product-") eqn:Hedit; simpl;
    (split; [done | by repeat constructor]).
Qed.

(** ** The multipart body of a product *)

Lemma foldl_append {A B} (g : B -> A) (l : list B) (acc : list A) :
  foldl (fun acc x => acc ++ [g x]) acc l = acc ++ (g <$> l).
Proof.
  revert acc. induction l as [|x l IH]; intros acc; simpl; [by rewrite app_nil_r |].
  by rewrite IH, <- app_assoc.
Qed.

(** X16. The multipart body holds the five text fields once each, in the
    order name, price, description, quantity, category, followed by one
    entry named images per selected file, in the order of the selection; so
    it has five entries plus one per file, and without a selected file no
    entry is named images. *)
Theorem product_form_entries `{Host} (formData : ProductFormData.t) :
  let files := ProductFormData.images formData in
  let entries := productFormData formData in
  fst <$> entries = ["name"; "price"; "description"; "quantity"; "category"]
                    ++ replicate (length files) "images"
  ∧ filter (fun entry => fst entry = "images") entries
    = (fun file => ("images", FormFile file)) <$> files
  ∧ length entries = (5 + length files)%nat
  ∧ (files = [] → Forall (fun entry => fst entry ≠ "images") entries).
Proof.
  intros files entries. subst entries. unfold productFormData.
  rewrite (foldl_append (fun file => ("images", FormFile file))). fold files.
  cbn [app]. split; [| split; [| split]].
  - cbn [fmap list_fmap fst app]. do 5 f_equal.
    induction files as [|f fs IH]; [done |]. simpl. by rewrite <- IH.
  - rewrite !filter_cons. cbn [fst]. rewrite !decide_False by done.
    induction files as [|f fs IH]; [done |].
    cbn [fmap list_fmap]. rewrite filter_cons. cbn [fst].
    rewrite decide_True by done. f_equal. apply IH.
  - cbn [length]. by rewrite length_fmap.
  - intros ->. by repeat constructor.
Qed.

(** ** The order filter over the statuses *)

(** X17. When every loaded order has one of the five statuses of the
    selector, the five filtered lists split the loaded list: each order is
    counted under exactly one status, so their lengths add up to the length
    of the list. *)
Theorem order_filters_partition (orders : list Order.t) :
  Forall (fun order => Order.status order ∈ drop 1 OrdersView.statuses) orders →
  sum_list (length <$> (OrdersView.filteredOrders orders <$> drop 1 OrdersView.statuses))
  = length orders.
Proof.
  induction 1 as [|order rest Hstatus _ IH]; [done |].
  cbn -[String.eqb] in *.
  unfold OrdersView.filteredOrders in *. cbn [String.eqb Ascii.eqb Bool.eqb] in *.
  cbn [Js.filter].
  repeat (apply elem_of_cons in Hstatus as [-> | Hstatus];
          [cbn [String.eqb Ascii.eqb Bool.eqb length]; lia |]).
  by apply elem_of_nil in Hstatus.
Qed.

(** ** The form of an edited product *)


(** ** What the handlers leave behind *)

Section Outcomes.
Context `{Host}.

Lemma not_awaited_run (m : M unit) (w : World) :
  not_awaited m w = (Returned tt, snd (m w)).
Proof. unfold not_awaited, try_catch. by destruct (m w) as [[[]|e] w']. Qed.

(** The result of [apiCall] depends on the world through the requests made
    so far only. *)
Lemma apiCall_same_history token e url options w w' :
  requests w = requests w' →
  fst (apiCall token e url options w) = fst (apiCall token e url options w').
Proof. intros Hsame. rewrite !apiCall_run. simpl. by rewrite Hsame. Qed.

Lemma apiCall_thrown token e url options w err :
  fst (apiCall token e url options w) = Thrown err →
  apiCall token e url options w = (Thrown err, sent (apiCall_request token url options) w).
Proof. intros Hfst. rewrite apiCall_run in *. simpl in *. by rewrite Hfst. Qed.

Lemma apiCall_returned token e url options w value :
  fst (apiCall token e url options w) = Returned value →
  apiCall token e url options w
  = (Returned value, sent (apiCall_request token url options) w).
Proof. intros Hfst. rewrite apiCall_run in *. simpl in *. by rewrite Hfst. Qed.

(** X9. A list fetch that succeeds replaces the cached list by the
    fetched one. One that fails, in whatever way, keeps the cached list and
    shows the fixed message of the handler, not the message of the server.
    Either way exactly one request goes out and nothing is thrown. *)
Theorem list_fetch_outcome (held : option string) (w : World) :
  let productsRequest := apiCall_request held "/api/products" no_options in
  let ordersRequest := apiCall_request held "/api/orders" no_options in
  (∀ list, fst (apiCall held ProductsEndpoint "/api/products" no_options w) = Returned list →
     fetchProducts held w = setProducts list (sent productsRequest w))
  ∧ (∀ err, fst (apiCall held ProductsEndpoint "/api/products" no_options w) = Thrown err →
     fetchProducts held w = setError "Failed to fetch products" (sent productsRequest w))
  ∧ (∀ list, fst (apiCall held OrdersEndpoint "/api/orders" no_options w) = Returned list →
     fetchOrders held w = setOrders list (sent ordersRequest w))
  ∧ (∀ err, fst (apiCall held OrdersEndpoint "/api/orders" no_options w) = Thrown err →
     fetchOrders held w = setError "Failed to fetch orders" (sent ordersRequest w)).
Proof.
  repeat split; intros x Hfst; unfold fetchProducts, fetchOrders, try_catch, mbind, M_bind.
  - by rewrite (apiCall_returned _ _ _ _ _ _ Hfst).
  - by rewrite (apiCall_thrown _ _ _ _ _ _ Hfst).
  - by rewrite (apiCall_returned _ _ _ _ _ _ Hfst).
  - by rewrite (apiCall_thrown _ _ _ _ _ _ Hfst).
Qed.

(** The shape of the world after a product fetch, whatever its outcome. *)
Lemma fetchProducts_world held w :
  ∃ list err,
    fetchProducts held w
    = (Returned tt,
       mk_world
         (mk_state (currentView (state w)) (user (state w)) (token (state w)) list
            (orders (state w)) (loading (state w)) err (success (state w)))
         (localStorage w) (requests w ++ [apiCall_request held "/api/products" no_options])
         (console w)).
Proof.
  unfold fetchProducts, try_catch, mbind, M_bind. rewrite apiCall_run. simpl.
  destruct (fetch ProductsEndpoint (requests w) _)
    as [[[value|err]|[errorData|err]]|err]; simpl; eauto.
Qed.

Lemma fetchOrders_world held w :
  ∃ list err,
    fetchOrders held w
    = (Returned tt,
       mk_world
         (mk_state (currentView (state w)) (user (state w)) (token (state w))
            (products (state w)) list (loading (state w)) err (success (state w)))
         (localStorage w) (requests w ++ [apiCall_request held "/api/orders" no_options])
         (console w)).
Proof.
  unfold fetchOrders, try_catch, mbind, M_bind. rewrite apiCall_run. simpl.
  destruct (fetch OrdersEndpoint (requests w) _)
    as [[[value|err]|[errorData|err]]|err]; simpl; eauto.
Qed.

(** X10. Deleting asks first: when the user declines, nothing happens at
    all. When the user confirms and the request fails, its message is shown,
    the list is not fetched again and one request went out. When it
    succeeds, the success message is set and the product list is fetched
    again. *)
Theorem delete_product_outcome (held : option string) (productId : string) (w : World) :
  let path := "/api/products/" +:+ productId in
  let options := mk_options (Some "DELETE") None None in
  let request := apiCall_request held path options in
  (window_confirm "Are you sure you want to delete this product?" = false →
     handleDeleteProduct held productId w = (Returned tt, w))
  ∧ (window_confirm "Are you sure you want to delete this product?" = true →
     (∀ err, fst (apiCall held AckEndpoint path options w) = Thrown err →
        handleDeleteProduct held productId w = setError (message err) (sent request w))
     ∧ (fst (apiCall held AckEndpoint path options w) = Returned tt →
        handleDeleteProduct held productId w
        = (Returned tt,
           snd (fetchProducts held
                  (snd (setSuccess "Product deleted successfully!" (sent request w)))))
        ∧ requests (snd (handleDeleteProduct held productId w))
          = requests w ++ [request; apiCall_request held "/api/products" no_options])).
Proof.
  intros path options request. subst path options request.
  unfold handleDeleteProduct. split; [by intros -> |].
  intros ->. unfold try_catch, mbind, M_bind. split.
  - intros err Hfst. by rewrite (apiCall_thrown _ _ _ _ _ _ Hfst).
  - intros Hfst. rewrite (apiCall_returned _ _ _ _ _ _ Hfst).
    cbn [setSuccess modify]. rewrite not_awaited_run. split; [done |].
    match goal with |- context [fetchProducts held ?w1] =>
      destruct (fetchProducts_world held w1) as (list & err & Hworld)
    end.
    rewrite Hworld. cbn. by rewrite <- app_assoc.
Qed.

(** X11. A product submission that fails shows the message of the failure
    and stays on the view it was sent from, after one request. One that
    succeeds sets the success message, fetches the product list again and
    goes to the products view. Either way the loading flag is down at the
    end and the session is untouched. *)
Theorem product_submit_outcome (held : option string) (formData : ProductFormData.t)
    (isEdit : bool) (productId : option string) (w : World) :
  let url := productSubmit_url isEdit productId in
  let options := productSubmit_options held formData isEdit in
  let request := apiCall_request held url options in
  let after := snd (handleProductSubmit held formData isEdit productId w) in
  (∀ err, fst (apiCall held AckEndpoint url options w) = Thrown err →
     after
     = mk_world
         (mk_state (currentView (state w)) (user (state w)) (token (state w))
            (products (state w)) (orders (state w)) false (message err)
            (success (state w)))
         (localStorage w) (requests w ++ [request]) (console w))
  ∧ (fst (apiCall held AckEndpoint url options w) = Returned tt →
     currentView (state after) = "products"
     ∧ loading (state after) = false
     ∧ success (state after)
       = (if isEdit then "Product updated successfully!"
          else "Product created successfully!")
     ∧ session after = session w
     ∧ requests after
       = requests w ++ [request; apiCall_request held "/api/products" no_options]).
Proof.
  intros url options request after. subst after request options url.
  unfold handleProductSubmit, try_finally, try_catch, mbind, M_bind.
  cbn [setLoading setError modify]. split.
  - intros err Hfst.
    erewrite apiCall_thrown
      by (erewrite apiCall_same_history; [exact Hfst | done]).
    done.
  - intros Hfst.
    erewrite apiCall_returned
      by (erewrite apiCall_same_history; [exact Hfst | done]).
    cbn [setSuccess modify]. rewrite not_awaited_run.
    match goal with |- context [fetchProducts held ?w1] =>
      destruct (fetchProducts_world held w1) as (list & err & Hworld)
    end.
    rewrite Hworld. cbn. by rewrite <- app_assoc.
Qed.

(** X12. A login or registration that fails shows the message of the
    failure and changes nothing else: token, profile, view, cached lists and
    local storage are as before, the loading flag is down, and one request
    went out. *)
Theorem failed_auth_keeps_session (held : option string) (formData : AuthForm.t)
    (isLogin : bool) (w : World) (err : exn) :
  fst (apiCall held AuthEndpoint (authEndpoint isLogin) (authOptions formData) w)
    = Thrown err →
  handleAuth held formData isLogin w
  = (Returned tt,
     mk_world
       (mk_state (currentView (state w)) (user (state w)) (token (state w))
          (products (state w)) (orders (state w)) false (message err)
          (success (state w)))
       (localStorage w)
       (requests w ++ [apiCall_request held (authEndpoint isLogin) (authOptions formData)])
       (console w)).
Proof.
  intros Hfst. unfold handleAuth, try_finally, try_catch, mbind, M_bind.
  cbn [setLoading setError modify].
  erewrite apiCall_thrown by (erewrite apiCall_same_history; [exact Hfst | done]).
  done.
Qed.

(** X20. Generating sample orders that fails shows the message of the
    failure after one request; when it succeeds the success message is set
    and the order list is fetched again. Either way the loading flag is down
    at the end and the products are untouched. *)
Theorem sample_orders_outcome (held : option string) (w : World) :
  let options := mk_options (Some "POST") None None in
  let request := apiCall_request held "/api/generate-sample-orders" options in
  let after := snd (generateSampleOrders held w) in
  (∀ err, fst (apiCall held AckEndpoint "/api/generate-sample-orders" options w)
          = Thrown err →
     after
     = mk_world
         (mk_state (currentView (state w)) (user (state w)) (token (state w))
            (products (state w)) (orders (state w)) false (message err)
            (success (state w)))
         (localStorage w) (requests w ++ [request]) (console w))
  ∧ (fst (apiCall held AckEndpoint "/api/generate-sample-orders" options w) = Returned tt →
     loading (state after) = false
     ∧ success (state after) = "Sample orders generated successfully!"
     ∧ products (state after) = products (state w)
     ∧ currentView (state after) = currentView (state w)
     ∧ requests after
       = requests w ++ [request; apiCall_request held "/api/orders" no_options]).
Proof.
  intros options request after. subst after request options.
  unfold generateSampleOrders, try_finally, try_catch, mbind, M_bind.
  cbn [setLoading modify]. split.
  - intros err Hfst.
    erewrite apiCall_thrown
      by (erewrite apiCall_same_history; [exact Hfst | done]).
    done.
  - intros Hfst.
    erewrite apiCall_returned
      by (erewrite apiCall_same_history; [exact Hfst | done]).
    cbn [setSuccess modify].
    match goal with |- context [not_awaited (fetchOrders held) ?w1] =>
      rewrite (not_awaited_run (fetchOrders held) w1);
      destruct (fetchOrders_world held w1) as (list & err & Hworld)
    end.
    rewrite Hworld. cbn. by rewrite <- app_assoc.
Qed.

End Outcomes.

(** ** What no action does *)

Section Frames.
Context {A B C : Type} (part : World -> C).

Lemma keeps_ret (a : A) : keeps part (mret a : M A).
Proof. by intros w. Qed.

Lemma keeps_throw (e : exn) : keeps part (throw e : M A).
Proof. by intros w. Qed.

Lemma keeps_bind (m : M A) (k : A -> M B) :
  keeps part m → (∀ a, keeps part (k a)) → keeps part (m ≫= k).
Proof.
  intros Hm Hk w. unfold mbind, M_bind. specialize (Hm w).
  destruct (m w) as [[a|e] w1]; simpl in *; [| done]. by rewrite Hk.
Qed.

Lemma keeps_try_catch (m : M A) (handler : exn -> M A) :
  keeps part m → (∀ e, keeps part (handler e)) → keeps part (try_catch m handler).
Proof.
  intros Hm Hh w. unfold try_catch. specialize (Hm w).
  destruct (m w) as [[a|e] w1]; simpl in *; [done |]. by rewrite Hh.
Qed.

Lemma keeps_try_finally (m : M A) (cleanup : M unit) :
  keeps part m → keeps part cleanup → keeps part (try_finally m cleanup).
Proof.
  intros Hm Hc w. unfold try_finally. specialize (Hm w).
  destruct (m w) as [r w1]. specialize (Hc w1).
  destruct (cleanup w1) as [[[]|e] w2]; simpl in *; congruence.
Qed.

Lemma returns_ret (a : A) : returns (mret a : M A).
Proof. intros w. by exists a. Qed.

Lemma returns_bind (m : M A) (k : A -> M B) :
  returns m → (∀ a, returns (k a)) → returns (m ≫= k).
Proof.
  intros Hm Hk w. unfold mbind, M_bind. destruct (Hm w) as [a Ha].
  destruct (m w) as [[a'|e] w1]; simpl in *; [apply Hk | done].
Qed.

(** A try block returns as soon as its handler does. *)
Lemma returns_try_catch (m : M A) (handler : exn -> M A) :
  (∀ e, returns (handler e)) → returns (try_catch m handler).
Proof.
  intros Hh w. unfold try_catch. destruct (m w) as [[a|e] w1]; [by exists a | apply Hh].
Qed.

Lemma returns_try_finally (m : M A) (cleanup : M unit) :
  returns m → returns cleanup → returns (try_finally m cleanup).
Proof.
  intros Hm Hc w. unfold try_finally. destruct (Hm w) as [a Ha].
  destruct (m w) as [r w1]. destruct (Hc w1) as [[] Hu].
  destruct (cleanup w1) as [[[]|e] w2]; simpl in *; [by exists a | done].
Qed.

End Frames.

Section NoAction.
Context `{Host}.

Lemma keeps_apiCall {C} (part : World -> C) held e url options :
  (∀ request w, part (sent request w) = part w) →
  keeps part (apiCall held e url options).
Proof. intros Hpart w. by rewrite apiCall_world. Qed.

Lemma returns_modify f : returns (modify f).
Proof. intros w. by exists tt. Qed.

(** Steps of a handler that keep [part]: the structure of the code, and at
    the leaves the primitives that do not write it. *)
Ltac keeps_steps :=
  repeat first
    [ match goal with
      | |- keeps _ (apiCall _ ?e _ _) => apply (keeps_apiCall _ _ e); by intros
      | |- keeps _ (not_awaited _) => unfold not_awaited
      end
    | apply keeps_bind | apply keeps_try_finally | apply keeps_try_catch
    | apply keeps_ret | apply keeps_throw
    | match goal with |- keeps _ _ => by intros ? end
    | intros ].

Ltac returns_steps :=
  repeat first
    [ apply returns_bind | apply returns_try_finally | apply returns_try_catch
    | apply returns_ret | apply returns_modify
    | match goal with
      | |- returns (not_awaited _) => unfold not_awaited
      | |- returns _ => intros ?; by eexists
      end
    | intros ].

Ltac open_handlers :=
  unfold fetchUserProfile, handleAuth, handleLogout, generateSampleOrders,
    handleProductSubmit, handleDeleteProduct, fetchProducts, fetchOrders.

(** X5. No action of [App] throws: every failure of a call is caught at
    its call site, so each handler and each effect body returns normally,
    whatever the network answers. *)
Theorem no_action_throws (held : option string) (a : Action) (w : World) :
  fst (dispatch held a w) = Returned tt.
Proof.
  assert (Hreturns : returns (dispatch held a)).
  { destruct a; simpl; open_handlers; try destruct (window_confirm _); returns_steps. }
  by destruct (Hreturns w) as [[] Hw].
Qed.

Lemma finally_lowers_loading (m : M unit) (w : World) :
  loading (state (snd (try_finally m (setLoading false) w))) = false.
Proof. unfold try_finally. by destruct (m w) as [r w1]. Qed.

(** X6. The loading flag is never left raised: the three actions that
    raise it (login or registration, sample orders, product submission)
    lower it again whatever the outcome of their call, and no other action
    writes it. *)
Theorem loading_flag_is_lowered (held : option string) (a : Action) (w : World) :
  loading (state (snd (dispatch held a w)))
  = if busy_action a then false else loading (state w).
Proof.
  destruct a; cbn [busy_action dispatch].
  - revert w. change (keeps (fun w => loading (state w)) (fetchUserProfile held)).
    open_handlers. keeps_steps.
  - unfold handleAuth, mbind, M_bind. cbn [setLoading setError modify].
    apply finally_lowers_loading.
  - done.
  - revert w. change (keeps (fun w => loading (state w)) (fetchProducts held)).
    open_handlers. keeps_steps.
  - revert w. change (keeps (fun w => loading (state w)) (fetchOrders held)).
    open_handlers. keeps_steps.
  - unfold generateSampleOrders, mbind, M_bind. cbn [setLoading modify].
    apply finally_lowers_loading.
  - unfold handleProductSubmit, mbind, M_bind. cbn [setLoading setError modify].
    apply finally_lowers_loading.
  - revert w. change (keeps (fun w => loading (state w)) (handleDeleteProduct held productId)).
    open_handlers. destruct (window_confirm _); keeps_steps.
Qed.

(** X19. Only the profile fetch, the login or registration and the logout
    write the session. Fetching the lists, generating sample orders,
    submitting and deleting a product leave the token, the profile and the
    local storage as they are, also when their call fails: a refused call
    of these never logs the vendor out. *)
Theorem catalog_actions_keep_session (held : option string) (a : Action) (w : World) :
  session_action a = false →
  session (snd (dispatch held a w)) = session w.
Proof.
  intros Ha. revert w. change (keeps session (dispatch held a)).
  destruct a; try discriminate Ha; simpl; open_handlers;
    try destruct (window_confirm _); keeps_steps.
Qed.

(** Every request of an action is the request of one of its call sites. *)
Lemma issues_call_sites (P : Request -> Prop) (held : option string) (a : Action) :
  (∀ url options, (url, options) ∈ call_sites held a →
                  P (apiCall_request held url options)) →
  issues P (dispatch held a).
Proof.
  intros HP.
  destruct a; simpl in HP |- *; open_handlers; try destruct (window_confirm _);
    repeat first
      [ match goal with
        | |- issues _ (apiCall _ ?e _ _) =>
            apply (issues_apiCall _ _ e); apply HP; set_solver
        end
      | quiet | apply issues_bind | apply issues_try_finally | apply issues_try_catch
      | apply issues_not_awaited
      | intros ].
Qed.

(** X7. Every request of every action goes to the configured backend, to
    a path under /api/; it is sent with no method (a GET), POST, PUT or
    DELETE, and it has a body only when it is a POST or a PUT. *)
Theorem requests_stay_on_the_backend (held : option string) (a : Action) (w : World) :
  ∃ new : list Request,
    requests (snd (dispatch held a w)) = requests w ++ new
    ∧ Forall (fun request =>
        (∃ path, url request = API_BASE_URL +:+ path ∧ Js.startsWith path "/api/" = true)
        ∧ init_method request ∈ [None; Some "POST"; Some "PUT"; Some "DELETE"]
        ∧ (is_Some (init_body request) →
           init_method request = Some "POST" ∨ init_method request = Some "PUT")) new.
Proof.
  revert w. apply issues_call_sites. intros url options Hsite.
  destruct a; simpl in Hsite;
    repeat (apply elem_of_cons in Hsite as [[= -> ->] | Hsite]);
    try (by apply elem_of_nil in Hsite);
    try (destruct isLogin); try (destruct isEdit);
    (split; [eexists; split; [reflexivity | reflexivity] |]);
    (split; [set_solver |]); cbn; intros [body Hbody]; try discriminate Hbody; eauto.
Qed.

Lemma content_type_plain held url options :
  headers options = None →
  init_headers (apiCall_request held url options) !! "Content-Type"
  = Some "application/json".
Proof.
  intros Hnone. unfold apiCall_request, apiCall_headers, spread. simpl.
  rewrite Hnone. simpl. rewrite (left_id_L ∅ (∪)).
  destruct (Js.truthy held); unfold bearer.
  - rewrite lookup_union_r by by rewrite lookup_singleton_ne.
    by rewrite lookup_singleton_eq.
  - by rewrite (left_id_L ∅ (∪)), lookup_singleton_eq.
Qed.

(** X8. Every request of every action carries the header Content-Type:
    application/json, the multipart request of a product submission
    included: no call site replaces the content type [apiCall] sets. *)
Theorem every_request_is_labelled_json (held : option string) (a : Action) (w : World) :
  ∃ new : list Request,
    requests (snd (dispatch held a w)) = requests w ++ new
    ∧ Forall (fun request =>
        init_headers request !! "Content-Type" = Some "application/json") new.
Proof.
  revert w. apply issues_call_sites. intros url options Hsite.
  destruct a; simpl in Hsite;
    repeat (apply elem_of_cons in Hsite as [[= -> ->] | Hsite]);
    try (by apply elem_of_nil in Hsite);
    first [ by apply content_type_plain | apply product_submit_content_type ].
Qed.

End NoAction.

(** ** Renders and effects after an event *)

Section Effects.
Context `{Host}.

(** A render in which no effect has anything to do settles at once: the
    profile effect runs only if the token changed and then finds none, and
    the view is neither products nor orders. *)
Lemma commit_no_effect fuel (previous : option AppState) (w : World) :
  (changed token previous (state w) = true → Js.truthy (token (state w)) = false) →
  currentView (state w) ≠ "products" →
  currentView (state w) ≠ "orders" →
  commit (2 + fuel) previous w = (Returned true, w).
Proof.
  intros Htoken Hproducts Horders.
  change (2 + fuel)%nat with (S (S fuel)). rewrite commit_unfold, runEffects_unfold.
  destruct (changed token previous (state w)) eqn:Hchanged;
    [rewrite profileEffect_idle by auto |];
    (destruct (changed (fun s => (currentView s, token s)) previous (state w));
     cbn [orb]; [rewrite viewEffect_idle by done |]); try done; by apply commit_settled.
Qed.

Lemma viewEffect_products render w :
  currentView render = "products" → Js.truthy (token render) = true →
  viewEffect render w = (Returned tt, snd (fetchProducts (token render) w)).
Proof.
  intros Hview Hheld. unfold viewEffect, mbind, M_bind. rewrite Hview, Hheld.
  cbn [String.eqb Ascii.eqb Bool.eqb andb when].
  by rewrite (not_awaited_run (fetchProducts (token render)) w).
Qed.

Lemma viewEffect_orders render w :
  currentView render = "orders" → Js.truthy (token render) = true →
  viewEffect render w = (Returned tt, snd (fetchOrders (token render) w)).
Proof.
  intros Hview Hheld. unfold viewEffect, mbind, M_bind. rewrite Hview, Hheld.
  cbn [String.eqb Ascii.eqb Bool.eqb andb when]. unfold mret, M_ret.
  by rewrite (not_awaited_run (fetchOrders (token render)) w).
Qed.

Lemma event_unfold fuel (handler : AppState -> M unit) (w : World) :
  event fuel handler w = commit fuel (Some (state w)) (snd (handler (state w) w)).
Proof.
  unfold event, mbind, M_bind, getState.
  by rewrite (not_awaited_run (handler (state w)) w).
Qed.

Lemma page_navigation (render : AppState) navigation errorBanner successBanner content :
  App render = Page navigation errorBanner successBanner content →
  Js.truthy (token render) = true ∧ nav_setCurrentView navigation = setCurrentView.
Proof.
  unfold App. destruct (Js.truthy (token render)); [| done]. by intros [= <- _ _ _].
Qed.

(** X13. On a rendered page, a click on Products in the navigation bar
    while another view is shown switches the view and fetches the product
    list once, with the token of the session; likewise for Orders. A click
    on any other item switches the view and fetches nothing, and so does a
    click on the item of the view already shown. Two renders settle the
    page. *)
Theorem navigation_fetches_the_list (w : World) (fuel : nat)
    navigation errorBanner successBanner content :
  App (state w) = Page navigation errorBanner successBanner content →
  let held := token (state w) in
  (currentView (state w) ≠ "products" →
     event (2 + fuel) (fun _ => navItemClick navigation "products") w
     = (Returned true, snd (fetchProducts held (snd (setCurrentView "products" w)))))
  ∧ (currentView (state w) ≠ "orders" →
     event (2 + fuel) (fun _ => navItemClick navigation "orders") w
     = (Returned true, snd (fetchOrders held (snd (setCurrentView "orders" w)))))
  ∧ (∀ item, item ≠ "products" → item ≠ "orders" →
     event (2 + fuel) (fun _ => navItemClick navigation item) w
     = (Returned true, snd (setCurrentView item w)))
  ∧ requests
      (snd (event (2 + fuel) (fun _ => navItemClick navigation (currentView (state w))) w))
    = requests w.
Proof.
  intros [Hheld Hset]%page_navigation held. subst held.
  unfold navItemClick. rewrite Hset. rewrite !event_unfold.
  split; [| split; [| split]].
  - intros Hview. change (2 + fuel)%nat with (S (S fuel)).
    rewrite commit_unfold, runEffects_unfold.
    rewrite changed_same by done. rewrite changed_other by (simpl; congruence).
    cbn [orb]. rewrite viewEffect_products by done. cbn [setCurrentView modify snd state token].
    match goal with |- context [fetchProducts ?t ?w1] =>
      destruct (fetchProducts_world t w1) as (list & err & ->)
    end.
    by apply commit_settled.
  - intros Hview. change (2 + fuel)%nat with (S (S fuel)).
    rewrite commit_unfold, runEffects_unfold.
    rewrite changed_same by done. rewrite changed_other by (simpl; congruence).
    cbn [orb]. rewrite viewEffect_orders by done. cbn [setCurrentView modify snd state token].
    match goal with |- context [fetchOrders ?t ?w1] =>
      destruct (fetchOrders_world t w1) as (list & err & ->)
    end.
    by apply commit_settled.
  - intros item Hproducts Horders. apply commit_no_effect; try done.
    intros Hchanged. by rewrite changed_same in Hchanged.
  - change (2 + fuel)%nat with (S (1 + fuel)). by rewrite commit_settled.
Qed.

(** X14. Loading the page without a stored token, or with an empty one,
    sends no request: the first render is the login screen and no effect
    has anything to do. *)
Theorem startup_without_token (storage : gmap string string) (fuel : nat) :
  Js.truthy (storage !! "token") = false →
  startup (2 + fuel) storage = (Returned true, mount storage)
  ∧ requests (mount storage) = []
  ∧ ∃ onAuth, App (state (mount storage)) = AuthScreenElement onAuth false "".
Proof.
  intros Hnone. split; [| split; [done |]].
  - unfold startup. by apply commit_no_effect.
  - unfold App, mount, initialState, localStorage_getItem. cbn. rewrite Hnone. eauto.
Qed.

(** X15. After a login or registration that succeeded, the change of the
    token makes the profile effect fetch the profile with the new token.
    When that fetch succeeds, the fetched profile replaces the one the login
    returned and the session stays open. When it fails, the token just
    stored is removed again from the state and from the local storage: the
    login screen is back, one request after the login succeeded. *)
Theorem login_is_followed_by_a_profile_fetch (formData : AuthForm.t) (isLogin : bool)
    (w : World) (response : AuthResponse) (fuel : nat) :
  Js.truthy (token (state w)) = false →
  access_token response ≠ "" →
  let authRequest :=
    apiCall_request (token (state w)) (authEndpoint isLogin) (authOptions formData) in
  let fetched :=
    fetch ProfileEndpoint (requests w ++ [authRequest])
          (profileRequest (Some (access_token response))) in
  fetch AuthEndpoint (requests w) authRequest = Resolved (Success (Parsed response)) →
  let result :=
    event (3 + fuel) (fun render => handleAuth (token render) formData isLogin) w in
  fst result = Returned true
  ∧ requests (snd result)
    = requests w ++ [authRequest; profileRequest (Some (access_token response))]
  ∧ currentView (state (snd result)) = "dashboard"
  ∧ (∀ profile, fetched = Resolved (Success (Parsed profile)) →
       authenticated (state (snd result))
       ∧ user (state (snd result)) = Some profile
       ∧ localStorage (snd result) !! "token" = Some (access_token response))
  ∧ ((∀ profile, fetched ≠ Resolved (Success (Parsed profile))) →
       anonymous (state (snd result))
       ∧ localStorage (snd result) !! "token" = None
       ∧ user (state (snd result)) = Some (vendor response)
       ∧ ∃ onAuth loading error,
           App (state (snd result)) = AuthScreenElement onAuth loading error).
Proof.
  intros Hanonymous Htoken authRequest fetched Hauth result.
  pose proof (truthy_string_true _ Htoken) as Htruthy.
  subst result. rewrite event_unfold.
  rewrite (handleAuth_success _ _ _ _ _ Hauth). cbn [snd].
  change (3 + fuel)%nat with (S (2 + fuel)). rewrite commit_unfold, runEffects_unfold.
  cbn [state].
  assert (Hother : token (state w) ≠ Some (access_token response))
    by (intros Heq; rewrite Heq in Hanonymous; simpl in Hanonymous; congruence).
  rewrite changed_other by done. rewrite changed_other by (simpl; congruence).
  cbn [orb]. rewrite profileEffect_held by done. rewrite not_awaited_run.
  rewrite viewEffect_idle by done. cbn [token].
  fold authRequest.
  destruct (fetch ProfileEndpoint (requests w ++ [authRequest])
              (profileRequest (Some (access_token response))))
    as [[[profile|err]|[errorData|err]]|err] eqn:Hanswer; subst fetched.
  1: { rewrite (fetchUserProfile_success _ _ profile) by exact Hanswer.
       cbn [snd state token currentView user products orders loading error success
            localStorage requests console].
       rewrite commit_no_effect;
         [| by intros Hchanged; rewrite changed_same in Hchanged | done | done].
       cbn [fst snd state requests localStorage currentView].
       split; [done |]. split; [by rewrite <- app_assoc |]. split; [done |]. split.
       - intros profile' [= <-]. unfold authenticated. simpl. rewrite Htruthy.
         split; [eauto |]. split; [done |]. by rewrite lookup_insert_eq.
       - intros Hno. by destruct (Hno profile). }
  all: match goal with |- context [fetchUserProfile ?t ?w1] =>
         destruct (fetchUserProfile_failure t w1) as [thrown ->];
           [by intros profile; cbn [requests]; rewrite Hanswer |]
       end;
       cbn [snd state token currentView user products orders loading error success
            localStorage requests console];
       (rewrite commit_no_effect; [| done | done | done]);
       cbn [fst snd state requests localStorage currentView];
       (split; [done |]); (split; [by rewrite <- app_assoc |]); (split; [done |]);
       (split; [by intros profile' [=] |]);
       intros _; unfold anonymous; simpl;
       (split; [done |]); (split; [by rewrite lookup_delete_eq |]); (split; [done |]);
       unfold App; simpl; eauto.
Qed.

End Effects.

(** ** Witnesses of the further properties *)

Lemma edit_form_targets_hyphen_free_id_witness :
  Js.includes (Product.id Sample.lamp) "-" = false
  ∧ ∃ found before after,
      Product.id found = "42"
      ∧ [Sample.shoe; Sample.lamp] = before ++ found :: after
      ∧ Forall (fun p => Product.id p ≠ "42") before.
Proof.
  split; [reflexivity |].
  destruct (edit_form_targets_hyphen_free_id (H := Sample.loginHost)
              (mk_state (editView Sample.lamp) (Some Sample.vendorA) (Some "t1")
                 [Sample.shoe; Sample.lamp] [] false "" "")
              Sample.lamp eq_refl eq_refl
              (list_elem_of_further _ _ _ (list_elem_of_here _ _)) eq_refl)
    as (navigation & errorBanner & successBanner & found & onSubmit & onCancel
        & _ & Hid & _ & (before & after & Hsplit & Hbefore) & _).
  exists found, before, after. split; [exact Hid | split; [exact Hsplit | exact Hbefore]].
Defined.

Lemma add_form_posts_witness :
  ∃ navigation errorBanner successBanner onSubmit onCancel,
    App (H := Sample.loginHost)
      (mk_state "add-product" (Some Sample.vendorA) (Some "t1") [] [] false "" "")
    = Page navigation errorBanner successBanner
        [ProductFormElement None onSubmit onCancel false false].
Proof.
  destruct (add_form_posts (H := Sample.loginHost)
              (mk_state "add-product" (Some Sample.vendorA) (Some "t1") [] [] false "" "")
              eq_refl eq_refl)
    as (navigation & errorBanner & successBanner & onSubmit & onCancel & Happ & _).
  exists navigation, errorBanner, successBanner, onSubmit, onCancel. exact Happ.
Defined.

Lemma list_fetch_outcome_witness :
  fetchProducts (H := Scenario.offlineHost) (Some "t1") Scenario.dashboard
  = setError "Failed to fetch products"
      (sent (apiCall_request (H := Scenario.offlineHost) (Some "t1") "/api/products"
               no_options) Scenario.dashboard)
  ∧ fetchOrders (H := Sample.loginHost) (Some "t1") Scenario.dashboard
    = setOrders []
        (sent (apiCall_request (H := Sample.loginHost) (Some "t1") "/api/orders" no_options)
              Scenario.dashboard).
Proof.
  split.
  - pose proof (list_fetch_outcome (H := Scenario.offlineHost) (Some "t1")
                  Scenario.dashboard) as (_ & Hfails & _).
    apply (Hfails (mk_exn "TypeError" "Failed to fetch")). reflexivity.
  - pose proof (list_fetch_outcome (H := Sample.loginHost) (Some "t1")
                  Scenario.dashboard) as (_ & _ & Hloads & _).
    apply (Hloads []). reflexivity.
Defined.

Lemma delete_product_outcome_witness :
  handleDeleteProduct (H := Scenario.offlineHost) (Some "t1") "42" Scenario.dashboard
  = (Returned tt, Scenario.dashboard)
  ∧ requests (snd (handleDeleteProduct (H := Sample.loginHost) (Some "t1") "42"
                     Scenario.dashboard))
    = [apiCall_request (H := Sample.loginHost) (Some "t1") "/api/products/42"
         (mk_options (Some "DELETE") None None);
       apiCall_request (H := Sample.loginHost) (Some "t1") "/api/products" no_options].
Proof.
  split.
  - pose proof (delete_product_outcome (H := Scenario.offlineHost) (Some "t1") "42"
                  Scenario.dashboard) as (Hdeclined & _).
    apply Hdeclined. reflexivity.
  - pose proof (delete_product_outcome (H := Sample.loginHost) (Some "t1") "42"
                  Scenario.dashboard) as (_ & Hconfirmed).
    destruct (Hconfirmed eq_refl) as (_ & Hsucceeds).
    destruct (Hsucceeds eq_refl) as (_ & Hrequests). exact Hrequests.
Defined.

Lemma product_submit_outcome_witness :
  currentView
    (state (snd (handleProductSubmit (H := Sample.loginHost) (Some "t1") Sample.lampForm
                   false None Scenario.dashboard)))
  = "products"
  ∧ error
      (state (snd (handleProductSubmit (H := Scenario.offlineHost) (Some "t1")
                     Sample.lampForm false None Scenario.dashboard)))
    = "Failed to fetch".
Proof.
  split.
  - pose proof (product_submit_outcome (H := Sample.loginHost) (Some "t1") Sample.lampForm
                  false None Scenario.dashboard) as (_ & Hsucceeds).
    destruct (Hsucceeds eq_refl) as (Hview & _). exact Hview.
  - pose proof (product_submit_outcome (H := Scenario.offlineHost) (Some "t1")
                  Sample.lampForm false None Scenario.dashboard) as (Hfails & _).
    rewrite (Hfails (mk_exn "TypeError" "Failed to fetch") eq_refl). reflexivity.
Defined.

Lemma sample_orders_outcome_witness :
  success (state (snd (generateSampleOrders (H := Sample.loginHost) (Some "t1")
                         Scenario.dashboard)))
  = "Sample orders generated successfully!"
  ∧ error (state (snd (generateSampleOrders (H := Scenario.offlineHost) (Some "t1")
                         Scenario.dashboard)))
    = "Failed to fetch".
Proof.
  split.
  - pose proof (sample_orders_outcome (H := Sample.loginHost) (Some "t1")
                  Scenario.dashboard) as (_ & Hsucceeds).
    destruct (Hsucceeds eq_refl) as (_ & Hsuccess & _). exact Hsuccess.
  - pose proof (sample_orders_outcome (H := Scenario.offlineHost) (Some "t1")
                  Scenario.dashboard) as (Hfails & _).
    rewrite (Hfails (mk_exn "TypeError" "Failed to fetch") eq_refl). reflexivity.
Defined.

Lemma failed_auth_keeps_session_witness :
  handleAuth (H := Sample.refusingHost) None Sample.loginForm true (mount ∅)
  = (Returned tt,
     mk_world (mk_state "login" None None [] [] false "Invalid credentials" "") ∅
       [apiCall_request (H := Sample.refusingHost) None "/api/auth/login"
          (authOptions Sample.loginForm)] []).
Proof.
  rewrite (failed_auth_keeps_session (H := Sample.refusingHost) None Sample.loginForm true
             (mount ∅) (Error "Invalid credentials") eq_refl).
  reflexivity.
Defined.

Lemma navigation_fetches_the_list_witness :
  requests (snd (event (H := Sample.loginHost) 2
                   (fun _ => setCurrentView "products") Scenario.dashboard))
  = [apiCall_request (H := Sample.loginHost) (Some "t1") "/api/products" no_options]
  ∧ event (H := Sample.loginHost) 2 (fun _ => setCurrentView "add-product")
      Scenario.dashboard
    = (Returned true, snd (setCurrentView "add-product" Scenario.dashboard)).
Proof.
  pose proof (navigation_fetches_the_list (H := Sample.loginHost) Scenario.dashboard 0
                _ _ _ _ eq_refl) as (Hproducts & _ & Hother & _).
  split.
  - refine (eq_trans (f_equal (fun result => requests (snd result)) (Hproducts _)) _);
      [discriminate | reflexivity].
  - refine (Hother "add-product" _ _); discriminate.
Defined.

Lemma startup_without_token_witness :
  startup (H := Sample.loginHost) 2 ∅ = (Returned true, mount ∅)
  ∧ startup (H := Sample.loginHost) 2 {[ "token" := "" ]}
    = (Returned true, mount {[ "token" := "" ]}).
Proof.
  split.
  - apply (startup_without_token (H := Sample.loginHost) ∅ 0). reflexivity.
  - apply (startup_without_token (H := Sample.loginHost) {[ "token" := "" ]} 0).
    reflexivity.
Defined.

Lemma login_is_followed_by_a_profile_fetch_witness :
  anonymous
    (state (snd (event (H := Scenario.staleHost) 3
                   (fun render =>
                      handleAuth (H := Scenario.staleHost) (token render)
                        Sample.loginForm true)
                   (mount ∅))))
  ∧ localStorage
      (snd (event (H := Scenario.staleHost) 3
              (fun render =>
                 handleAuth (H := Scenario.staleHost) (token render) Sample.loginForm true)
              (mount ∅)))
    !! "token" = None.
Proof.
  pose proof (login_is_followed_by_a_profile_fetch (H := Scenario.staleHost)
                Sample.loginForm true (mount ∅) (Build_AuthResponse "t1" Sample.vendorA) 0
                eq_refl ltac:(discriminate) eq_refl) as (_ & _ & _ & _ & Hfails).
  destruct Hfails as (Hanonymous & Hstored & _); [intros profile; discriminate |].
  split; [exact Hanonymous | exact Hstored].
Defined.

Lemma product_form_entries_witness :
  Forall (fun entry => fst entry ≠ "images")
         (productFormData (H := Sample.loginHost) Sample.lampForm).
Proof.
  pose proof (product_form_entries (H := Sample.loginHost) Sample.lampForm)
    as (_ & _ & _ & Hnone).
  apply Hnone. reflexivity.
Defined.

Lemma order_filters_partition_witness :
  sum_list (length <$> (OrdersView.filteredOrders Sample.someOrders
                          <$> drop 1 OrdersView.statuses))
  = 3%nat.
Proof.
  apply (order_filters_partition Sample.someOrders).
  repeat constructor.
Defined.


Lemma catalog_actions_keep_session_witness :
  session (snd (dispatch (H := Sample.refusingHost) (Some "t1") (ProductDelete "42")
                  Scenario.dashboard))
  = (Some "t1", Some Sample.vendorA, {[ "token" := "t1" ]}).
Proof.
  apply (catalog_actions_keep_session (H := Sample.refusingHost) (Some "t1")
           (ProductDelete "42") Scenario.dashboard).
  reflexivity.
Defined.

(** ** The buttons of a product card *)

Section ProductCard.
Context `{Host}.

(** What [App] passes to the products view. *)
Lemma products_page (render : AppState) navigation errorBanner successBanner
    listed onDelete onEdit :
  App render
  = Page navigation errorBanner successBanner [ProductsViewElement listed onDelete onEdit] →
  Js.truthy (token render) = true
  ∧ currentView render = "products"
  ∧ listed = products render
  ∧ onDelete = handleDeleteProduct (token render)
  ∧ onEdit = (fun product => setCurrentView (editView product)).
Proof.
  unfold App. destruct (Js.truthy (token render)); [| done]. cbn [negb].
  destruct (String.eqb_spec (currentView render) "dashboard") as [-> | _]; [done |].
  destruct (String.eqb_spec (currentView render) "products") as [Hview | _].
  - rewrite Hview. cbn. by intros [= _ _ _ <- <- <-].
  - destruct (String.eqb_spec (currentView render) "add-product") as [-> | _]; [done |].
    destruct (String.eqb_spec (currentView render) "orders") as [-> | _]; [done |].
    by destruct (Js.startsWith (currentView render) "edit-product-").
Qed.

(** The first request of a confirmed deletion. *)
Lemma handleDeleteProduct_request held productId w :
  window_confirm "Are you sure you want to delete this product?" = true →
  ∃ later,
    requests (snd (handleDeleteProduct held productId w))
    = requests w
      ++ apiCall_request held ("/api/products/" +:+ productId)
           (mk_options (Some "DELETE") None None) :: later.
Proof.
  intros Hconfirmed. unfold handleDeleteProduct. rewrite Hconfirmed.
  unfold try_catch, mbind, M_bind. rewrite apiCall_run.
  cbn [state requests localStorage console].
  destruct (fetch AckEndpoint (requests w) _)
    as [[[value|err]|[errorData|err]]|err]; cbn; try (exists []; done).
  match goal with |- context [not_awaited (fetchProducts held) ?w1] =>
    rewrite (not_awaited_run (fetchProducts held) w1);
    destruct (fetchProducts_world held w1) as (list & err & ->)
  end.
  cbn. eexists. by rewrite <- app_assoc.
Qed.

(** X21. On the products page, a click on Edit of a listed product whose
    id has no hyphen fetches nothing and opens the edit form of the first
    listed product with that id: no product listed before it has that id;
    the form is started from its name, description and category. *)
Theorem edit_click_opens_the_form (w : World) (fuel : nat) (product : Product.t)
    navigation errorBanner successBanner listed onDelete onEdit :
  App (state w)
  = Page navigation errorBanner successBanner [ProductsViewElement listed onDelete onEdit] →
  product ∈ listed →
  Js.includes (Product.id product) "-" = false →
  let result := event (2 + fuel) (fun _ => ProductsView.onEditClick onEdit product) w in
  fst result = Returned true
  ∧ requests (snd result) = requests w
  ∧ ∃ navigation' errorBanner' successBanner' found onSubmit onCancel,
      App (state (snd result))
      = Page navigation' errorBanner' successBanner'
          [ProductFormElement (Some found) onSubmit onCancel (loading (state w)) true]
      ∧ found ∈ listed
      ∧ Product.id found = Product.id product
      ∧ (∃ before after,
           listed = before ++ found :: after
           ∧ Forall (fun p => Product.id p ≠ Product.id product) before)
      ∧ ProductFormData.name (ProductForm.initialFormData (Some found)) = Product.name found
      ∧ ProductFormData.description (ProductForm.initialFormData (Some found))
        = Product.description found
      ∧ ProductFormData.category (ProductForm.initialFormData (Some found))
        = Product.category found.
Proof.
  intros (Hheld & Hview & -> & _ & ->)%products_page Hlisted Hfree result.
  subst result. unfold ProductsView.onEditClick. rewrite event_unfold.
  assert (Hedit : ∀ id,
    Js.startsWith ("edit-product-" +:+ id) "edit-product-" = true
    ∧ String.eqb ("edit-product-" +:+ id) "dashboard" = false
    ∧ String.eqb ("edit-product-" +:+ id) "products" = false
    ∧ String.eqb ("edit-product-" +:+ id) "add-product" = false
    ∧ String.eqb ("edit-product-" +:+ id) "orders" = false)
    by (intros id; repeat split; destruct id; reflexivity).
  destruct (Hedit (Product.id product)) as (Hstarts & Hd & Hp & Ha & Ho).
  rewrite commit_no_effect; cbn [setCurrentView modify snd state currentView token].
  2: { intros Hchanged. by rewrite changed_same in Hchanged. }
  2, 3: unfold editView; intros Heq; rewrite Heq in *; discriminate.
  split; [done |]. split; [done |].
  destruct (find_first_by_id _ _ Hlisted)
    as (found & before & after & Hfind & Hid & Hsplit & Hbefore).
  assert (Hfound : found ∈ products (state w))
    by (rewrite Hsplit; apply elem_of_app; right; apply list_elem_of_here).
  unfold App. cbn [currentView token products orders loading error success user].
  rewrite Hheld. cbn [negb].
  rewrite (viewProductId_hyphen_free _ Hfree), Hfind. unfold editView.
  rewrite Hstarts, Hd, Hp, Ha, Ho. cbn [shown app].
  do 6 eexists. split; [reflexivity |]. split; [done |]. split; [done |].
  split; [by exists before, after |].
  assert (Hor : ∀ s, (if Js.truthy_string s then s else "") = s) by (by intros []).
  unfold ProductForm.initialFormData. cbn. by rewrite !Hor.
Qed.

(** X22. On the products page, a confirmed click on Delete of a listed
    product sends first a DELETE to the path of the whole product id, with
    no body, whatever characters the id contains. *)
Theorem delete_click_targets_the_product (w : World) (product : Product.t)
    navigation errorBanner successBanner listed onDelete onEdit :
  App (state w)
  = Page navigation errorBanner successBanner [ProductsViewElement listed onDelete onEdit] →
  window_confirm "Are you sure you want to delete this product?" = true →
  ∃ request later,
    requests (snd (ProductsView.onDeleteClick onDelete product w))
    = requests w ++ request :: later
    ∧ url request = API_BASE_URL +:+ "/api/products/" +:+ Product.id product
    ∧ init_method request = Some "DELETE"
    ∧ init_body request = None.
Proof.
  intros (_ & _ & _ & -> & _)%products_page Hconfirmed.
  unfold ProductsView.onDeleteClick.
  destruct (handleDeleteProduct_request (token (state w)) (Product.id product) w Hconfirmed)
    as (later & Hlater).
  eexists _, later. split; [exact Hlater |]. done.
Qed.

End ProductCard.

Lemma edit_click_opens_the_form_witness :
  requests
    (snd (event (H := Sample.loginHost) 2
            (fun _ =>
               ProductsView.onEditClick (fun product => setCurrentView (editView product))
                 Sample.lamp)
            (mk_world
               (mk_state "products" (Some Sample.vendorA) (Some "t1")
                  [Sample.shoe; Sample.lamp] [] false "" "")
               {[ "token" := "t1" ]} [] [])))
  = [].
Proof.
  pose proof (edit_click_opens_the_form (H := Sample.loginHost)
    (mk_world
       (mk_state "products" (Some Sample.vendorA) (Some "t1")
          [Sample.shoe; Sample.lamp] [] false "" "")
       {[ "token" := "t1" ]} [] [])
    0 Sample.lamp _ _ _ _ _ _ eq_refl
    (list_elem_of_further _ _ _ (list_elem_of_here _ _)) eq_refl) as (_ & Hrequests & _).
  exact Hrequests.
Defined.

Lemma delete_click_targets_the_product_witness :
  ∃ request later,
    requests
      (snd (ProductsView.onDeleteClick
              (handleDeleteProduct (H := Sample.loginHost) (Some "t1")) Sample.shoe
              (mk_world
                 (mk_state "products" (Some Sample.vendorA) (Some "t1")
                    [Sample.shoe; Sample.lamp] [] false "" "")
                 {[ "token" := "t1" ]} [] [])))
    = request :: later
    ∧ url request
      = "http://localhost:8001/api/products/3f2b8c1e-77aa-4d10-9c55-0a1b2c3d4e5f".
Proof.
  destruct (delete_click_targets_the_product (H := Sample.loginHost)
    (mk_world
       (mk_state "products" (Some Sample.vendorA) (Some "t1")
          [Sample.shoe; Sample.lamp] [] false "" "")
       {[ "token" := "t1" ]} [] [])
    Sample.shoe _ _ _ _ _ _ eq_refl eq_refl) as (request & later & Hrequests & Hurl & _).
  exists request, later. split; [exact Hrequests | exact Hurl].
Defined.
